(** * The JSON-file annotation store of [dist/examples/flask-jsondb/openlimedb.py]

    The module keeps a list of annotation records in memory ([DB.db]) and
    rewrites one JSON file after every successful mutation.  Python
    dictionaries are mutable objects with identity, and the store keeps the
    very objects its callers hand in, so the embedding has a heap of objects
    and the collection is a list of references into it.  The methods run in
    a small state-and-exception monad over the store object and the world
    (heap and file system). *)

From stdpp Require Import gmap strings list fin_maps pretty.

Set Warnings "-register-all".

(** ** Python values *)

(** The values [json.load] builds and [request.json] carries.  Numbers with a
    fraction or an exponent (Python floats) are left out: the module never
    inspects them and their text form is IEEE formatting. *)
Inductive value :=
  | VNone
  | VBool (b : bool)
  | VInt (z : Z)
  | VStr (s : string)
  | VList (l : list value)
  | VDict (d : gmap string value).

#[global] Instance value_inhabited : Inhabited value := populate VNone.

(** The exceptions that can travel through the module. *)
Inductive exn :=
  | FileNotFoundError
  | PermissionError
  | JSONDecodeError
  | UnicodeDecodeError
  | KeyError
  | TypeError
  | IndexError
  | AttributeError.

#[global] Instance exn_eq_dec : EqDecision exn.
Proof. solve_decision. Defined.

Inductive result (A : Type) :=
  | Return (a : A)
  | Raise (e : exn).
Arguments Return {A} a.
Arguments Raise {A} e.

(** References to heap objects. *)
Abbreviation loc := positive.

(** ** What the module takes from Python itself

    [str] on lists and dictionaries, [json.dump] and [json.load] are library
    code.  They are parameters of the development; [text] is the type of a
    file's contents. *)
Class Builtins := {
  text : Type;
  repr : value → string;
  json_dump : value → text;
  json_load : text → result value;
}.

(** The contract of the [json] module that persistence relies on: what was
    dumped loads back as the same value. *)
Definition json_roundtrip `{Builtins} : Prop :=
  ∀ v : value, json_load (json_dump v) = Return v.

(** [str(v)]. *)
Definition py_str `{Builtins} (v : value) : string :=
  match v with
  | VStr s => s
  | VInt z => pretty z
  | VBool true => "True"
  | VBool false => "False"
  | VNone => "None"
  | VList _ | VDict _ => repr v
  end.

(** [v[k]], for a string key [k]. *)
Definition getitem (v : value) (k : string) : result value :=
  match v with
  | VDict d => match d !! k with
               | Some x => Return x
               | None => Raise KeyError
               end
  | _ => Raise TypeError
  end.

(** [v[k] = x], for a string key [k]. *)
Definition setitem (v : value) (k : string) (x : value) : result value :=
  match v with
  | VDict d => Return (VDict (<[k := x]> d))
  | _ => Raise TypeError
  end.

(** [v == s], for a [str] [s]: only a string equals a string. *)
Definition eq_str (v : value) (s : string) : bool :=
  match v with
  | VStr t => bool_decide (t = s)
  | _ => false
  end.

(** ** The world and the store object *)

(** An entry of the file system: a file with its contents, or an entry that
    [open] refuses (no permission).  A path with no entry does not exist. *)
Inductive fnode `{Builtins} :=
  | Denied
  | File (t : text).
Arguments Denied {_}.
Arguments File {_} t.

(** [writes] counts the completed file writes. *)
Record world `{Builtins} := World {
  heap : gmap loc value;
  fs : gmap string fnode;
  writes : nat;
}.
Arguments World {_} heap fs writes.

(** What [json.load] returns when the file does not hold an array. *)
Inductive nonlist :=
  | NNone
  | NBool (b : bool)
  | NInt (z : Z)
  | NStr (s : string)
  | NDict (d : gmap string value).

Definition nonlist_value (n : nonlist) : value :=
  match n with
  | NNone => VNone
  | NBool b => VBool b
  | NInt z => VInt z
  | NStr s => VStr s
  | NDict d => VDict d
  end.

(** The attribute [self.db]: a list of record objects, or whatever else the
    backing file held. *)
Inductive dbattr :=
  | DBList (items : list loc)
  | DBOther (n : nonlist).

Record DB := Store {
  dbname : string;
  db : dbattr;
}.

(** The records behind a list of references. *)
Definition records (h : gmap loc value) (items : list loc) : list value :=
  (λ l, h !!! l) <$> items.

(** The value of [self.db], as [jsonify] and [json.dump] see it. *)
Definition collection `{Builtins} (d : DB) (w : world) : value :=
  match db d with
  | DBList items => VList (records (heap w) items)
  | DBOther n => nonlist_value n
  end.

(** Allocation of a new object. *)
Definition alloc (h : gmap loc value) (v : value) : loc * gmap loc value :=
  let l := fresh (dom h) in (l, <[l := v]> h).

Fixpoint alloc_list (h : gmap loc value) (vs : list value)
    : list loc * gmap loc value :=
  match vs with
  | [] => ([], h)
  | v :: vs' =>
      let '(l, h1) := alloc h v in
      let '(ls, h2) := alloc_list h1 vs' in
      (l :: ls, h2)
  end.

(** Binding a loaded value to [self.db]: the elements of an array become
    objects of the heap. *)
Definition bind_loaded (h : gmap loc value) (v : value)
    : dbattr * gmap loc value :=
  match v with
  | VList vs => let '(ls, h') := alloc_list h vs in (DBList ls, h')
  | VNone => (DBOther NNone, h)
  | VBool b => (DBOther (NBool b), h)
  | VInt z => (DBOther (NInt z), h)
  | VStr s => (DBOther (NStr s), h)
  | VDict d => (DBOther (NDict d), h)
  end.

(** ** The monad of the methods *)

Section Store.
Context `{Builtins}.

Definition state : Type := DB * world.

Definition M (A : Type) : Type := state → result A * state.

#[global] Instance M_ret : MRet M := λ A a s, (Return a, s).

#[global] Instance M_bind : MBind M := λ A B f m s,
  match m s with
  | (Return a, s') => f a s'
  | (Raise e, s') => (Raise e, s')
  end.

Definition raise {A} (e : exn) : M A := λ s, (Raise e, s).

Definition lift {A} (r : result A) : M A := λ s, (r, s).

(** Reading an object.  The stores the methods build hold references to
    allocated objects only; a reference with no object reads as [None]. *)
Definition get_obj (l : loc) : M value :=
  λ s, (Return (heap s.2 !!! l), s).

Definition set_obj (l : loc) (v : value) : M unit :=
  λ '(d, w), (Return (), (d, World (<[l := v]> (heap w)) (fs w) (writes w))).

Definition get_db : M dbattr := λ s, (Return (db s.1), s).

Definition set_db (x : dbattr) : M unit :=
  λ '(d, w), (Return (), (Store (dbname d) x, w)).

(** ** The methods of [DB] *)

(** [__init__] (lines 9-15).  Only [FileNotFoundError] and [JSONDecodeError]
    are caught. *)
Definition open_read (name : string) (w : world) : result text :=
  match fs w !! name with
  | None => Raise FileNotFoundError
  | Some Denied => Raise PermissionError
  | Some (File t) => Return t
  end.

Definition caught (e : exn) : bool :=
  bool_decide (e = FileNotFoundError ∨ e = JSONDecodeError).

Definition read_and_load (name : string) (w : world) : result value :=
  match open_read name w with
  | Return t => json_load t
  | Raise e => Raise e
  end.

Definition DB_init (name : string) (w : world) : result DB * world :=
  match read_and_load name w with
  | Return v =>
      let '(x, h') := bind_loaded (heap w) v in
      (Return (Store name x), World h' (fs w) (writes w))
  | Raise e =>
      if caught e then (Return (Store name (DBList [])), w)
      else (Raise e, w)
  end.

(** [dbwrite] (lines 17-19): the whole collection replaces the file.  A path
    with no entry is created; a path whose directory is missing, where
    [open] raises as well, is not among the entries of the file system. *)
Definition dbwrite : M unit :=
  λ '(d, w),
    match fs w !! dbname d with
    | Some Denied => (Raise PermissionError, (d, w))
    | _ =>
        (Return (),
         (d, World (heap w)
                   (<[dbname d := File (json_dump (collection d w))]> (fs w))
                   (S (writes w))))
    end.

(** [dbread] (lines 21-22). *)
Definition dbread : M value := λ s, (Return (collection s.1 s.2), s).

(** The envelope the mutating methods return. *)
Record reply := Reply {
  status : string;
  message : string;
}.

(** [self.db.append(item)]. *)
Definition db_append (item : loc) : M unit :=
  x ← get_db;
  match x with
  | DBList items => set_db (DBList (items ++ [item]))
  | DBOther _ => raise AttributeError
  end.

(** [dbcreate] (lines 24-31). *)
Definition dbcreate (item : loc) : M reply :=
  obj ← get_obj item;
  v ← lift (getitem obj "id");
  obj' ← lift (setitem obj "id" (VStr (py_str v)));
  set_obj item obj';;
  db_append item;;
  dbwrite;;
  mret (Reply "ok" "Annotation created successfully").

(** The scan of lines 34-38 and 55-59 over a list of records: the index of
    the first record whose [id] equals [sid], or [-1]. *)
Fixpoint scan (h : gmap loc value) (sid : string) (items : list loc) (i : Z)
    : result Z :=
  match items with
  | [] => Return (-1)%Z
  | l :: rest =>
      match getitem (h !!! l) "id" with
      | Return v => if eq_str v sid then Return i else scan h sid rest (i + 1)%Z
      | Raise e => Raise e
      end
  end.

(** The same loop when [self.db] is not a list: [None], booleans and
    integers cannot be iterated; a string yields its characters and a
    dictionary its keys, and [record['id']] on such a string is a
    [TypeError]. *)
Definition scan_other (n : nonlist) : result Z :=
  match n with
  | NStr "" => Return (-1)%Z
  | NDict d => if bool_decide (d = ∅) then Return (-1)%Z else Raise TypeError
  | _ => Raise TypeError
  end.

Definition find_record (sid : string) : M Z :=
  λ s,
    match db s.1 with
    | DBList items => (scan (heap s.2) sid items 0, s)
    | DBOther n => (scan_other n, s)
    end.

(** [self.db[idx] = item], for [idx >= 0].  [dbupdate] gets here with the
    index the scan found, so on a list only. *)
Definition db_setitem (idx : Z) (item : loc) : M unit :=
  x ← get_db;
  match x with
  | DBList items =>
      if bool_decide (Z.to_nat idx < length items)
      then set_db (DBList (<[Z.to_nat idx := item]> items))
      else raise IndexError
  | DBOther _ => raise TypeError
  end.

(** [self.db.pop(idx)], for [idx >= 0].  [dbdelete] gets here with the
    index the scan found, so on a list only. *)
Definition db_pop (idx : Z) : M unit :=
  x ← get_db;
  match x with
  | DBList items =>
      if bool_decide (Z.to_nat idx < length items)
      then set_db (DBList (delete (Z.to_nat idx) items))
      else raise IndexError
  | DBOther _ => raise AttributeError
  end.

(** [dbupdate] (lines 33-52). *)
Definition dbupdate (id : value) (item : loc) : M reply :=
  idx ← find_record (py_str id);
  if bool_decide (0 ≤ idx)%Z then
    obj ← get_obj item;
    obj' ← lift (setitem obj "id" (VStr (py_str id)));
    set_obj item obj';;
    db_setitem idx item;;
    dbwrite;;
    mret (Reply "ok" "Annotation updated successfully")
  else
    mret (Reply "err" "Error in updating annotation").

(** [dbdelete] (lines 54-72). *)
Definition dbdelete (id : value) : M reply :=
  idx ← find_record (py_str id);
  if bool_decide (0 ≤ idx)%Z then
    db_pop idx;;
    dbwrite;;
    mret (Reply "ok" "Annotation deleted successfully")
  else
    mret (Reply "err" "Error in deleting annotation").

(** ** The HTTP adapter (lines 91-129)

    [request.json] is the object [item]; the body of a response is the
    envelope of the store, or [{'status': 'err', 'message': str(e)}] for an
    exception [e]. *)
Inductive body :=
  | Envelope (r : reply)
  | Failure (e : exn).

Record response := Response {
  code : Z;
  payload : body;
}.

Definition respond (m : M reply) : M response :=
  λ s,
    match m s with
    | (Return r, s') =>
        if bool_decide (status r = "err")
        then (Return (Response 400 (Envelope r)), s')
        else (Return (Response 200 (Envelope r)), s')
    | (Raise e, s') => (Return (Response 500 (Failure e)), s')
    end.

Definition create_annotation (item : loc) : M response :=
  respond (dbcreate item).

Definition update_annotation (id : value) (item : loc) : M response :=
  respond (dbupdate id item).

Definition delete_annotation (id : value) : M response :=
  respond (dbdelete id).

(** [get_annotations] (lines 80-89): the body is the collection as
    [dbread] returns it, or the error envelope of an exception. *)
Inductive listing :=
  | Listing (v : value)
  | ListingFailure (e : exn).

Record get_response := GetResponse {
  get_code : Z;
  get_payload : listing;
}.

Definition get_annotations : M get_response :=
  λ s,
    match dbread s with
    | (Return v, s') => (Return (GetResponse 200 (Listing v)), s')
    | (Raise e, s') => (Return (GetResponse 500 (ListingFailure e)), s')
    end.

(** ** Sequences of calls *)

Inductive op :=
  | Create (item : loc)
  | Update (id : value) (item : loc)
  | Delete (id : value).

Definition exec (o : op) : M reply :=
  match o with
  | Create item => dbcreate item
  | Update id item => dbupdate id item
  | Delete id => dbdelete id
  end.

(** The state a call leaves behind, whether it returns or raises. *)
Definition step (o : op) (s : state) : state := (exec o s).2.

Definition run (ops : list op) (s : state) : state :=
  foldl (λ s o, step o s) s ops.

(** ** Vocabulary of the specification *)

(** The [id] field of a record, when the value is a dictionary with one. *)
Definition record_id (x : value) : option value :=
  match x with
  | VDict d => d !! "id"
  | _ => None
  end.

(** A record of the data model: a dictionary with an [id] field. *)
Definition is_record (x : value) : Prop := is_Some (record_id x).

(** The string form of a record's id. *)
Definition id_text (x : value) : option string := py_str <$> record_id x.

(** The test of the scans: [record['id'] == sid]. *)
Definition id_is (sid : string) (x : value) : bool :=
  match record_id x with
  | Some v => eq_str v sid
  | None => false
  end.

(** [k] is the position of the first record with id [sid]. *)
Definition first_match (sid : string) (recs : list value) (k : nat) : Prop :=
  (∃ x, recs !! k = Some x ∧ id_is sid x = true)
  ∧ ∀ j y, j < k → recs !! j = Some y → id_is sid y = false.

(** The states a store goes through, starting from an empty collection. *)
Inductive reachable : state → Prop :=
  | reachable_empty name w : reachable (Store name (DBList []), w)
  | reachable_step o s : reachable s → reachable (step o s).

(** The caller's part in keeping ids apart: a created record has an id whose
    string form no record of the collection has, and the record given to an
    update is an object that the collection does not hold. *)
Definition fresh_call (o : op) (s : state) : Prop :=
  match db s.1 with
  | DBList items =>
      match o with
      | Create item =>
          ∀ sid, id_text (heap s.2 !!! item) = Some sid →
                 Forall (λ x, id_text x ≠ Some sid) (records (heap s.2) items)
      | Update _ item => item ∉ items
      | Delete _ => True
      end
  | DBOther _ => True
  end.

Inductive reachable_fresh : state → Prop :=
  | fresh_empty name w : reachable_fresh (Store name (DBList []), w)
  | fresh_step o s :
      reachable_fresh s → fresh_call o s → reachable_fresh (step o s).

(** Every record of the collection has a string for its [id]. *)
Definition string_ids (s : state) : Prop :=
  ∃ items, db s.1 = DBList items
    ∧ Forall (λ x, ∃ sid, record_id x = Some (VStr sid))
             (records (heap s.2) items).

(** No two records of the collection have the same id. *)
Definition unique_ids (s : state) : Prop :=
  ∃ items, db s.1 = DBList items
    ∧ NoDup (id_text <$> records (heap s.2) items).



(** A store constructed from the backing file would hold the collection in
    memory. *)
Definition persisted (s : state) : Prop :=
  ∃ d2 w2, DB_init (dbname s.1) s.2 = (Return d2, w2)
           ∧ collection d2 w2 = collection s.1 s.2.

(** The backing file can be opened for writing. *)
Definition writable (d : DB) (w : world) : Prop :=
  fs w !! dbname d ≠ Some Denied.

End Store.

(** ** A reference instance of the built-ins

    A file holds either a JSON document, kept as the value it denotes, or
    text that is not JSON. *)
Inductive sample_text :=
  | Doc (v : value)
  | Junk (raw : string).

Definition sample : Builtins := {|
  text := sample_text;
  repr := λ _, "<object>";
  json_dump := Doc;
  json_load := λ t, match t with
                    | Doc v => Return v
                    | Junk _ => Raise JSONDecodeError
                    end;
|}.

(** Sample objects and stores, for the instances below. *)
Definition cat : gmap string value :=
  <["id" := VStr "1"]> (<["label" := VStr "cat"]> ∅).

Definition dog : gmap string value :=
  <["id" := VStr "2"]> (<["label" := VStr "dog"]> ∅).

Definition bird : gmap string value :=
  <["id" := VInt 7]> (<["label" := VStr "bird"]> ∅).

Definition lynx : gmap string value :=
  <["id" := VInt 1]> (<["label" := VStr "lynx"]> ∅).

(** An object with no [id] field. *)
Definition owl : gmap string value := <["label" := VStr "owl"]> ∅.

Definition sample_heap : gmap loc value :=
  <[1%positive := VDict cat]>
    (<[2%positive := VDict dog]>
       (<[3%positive := VDict bird]>
          (<[4%positive := VDict lynx]> (<[5%positive := VDict owl]> ∅)))).

(** A world whose backing file holds the two records of [sample_db]. *)
Definition sample_world : @world sample :=
  World sample_heap
        {["anno.json" := @File sample (Doc (VList [VDict cat; VDict dog]))]}
        0.

Definition sample_db : DB := Store "anno.json" (DBList [1%positive; 2%positive]).

(** A world in which [open] refuses the backing file. *)
Definition denied_world : @world sample :=
  World sample_heap {["anno.json" := @Denied sample]} 0.

(** A world whose backing file is not JSON. *)
Definition junk_world : @world sample :=
  World sample_heap {["anno.json" := @File sample (Junk "{oops")]} 0.


(** The sample store with the record [owl], which has no [id], between its
    two records. *)
Definition gap_db : DB :=
  Store "anno.json" (DBList [1%positive; 5%positive; 2%positive]).

(** An empty store with no backing file yet. *)
Definition empty_state : @state sample :=
  (Store "anno.json" (DBList []), World sample_heap ∅ 0).

(** The empty store after [create(cat)], [create(dog)], [update("1", bird)],
    [delete("1")] and [create(lynx)]: every created id was new and the
    updating record was a new object. *)
Definition busy_state : @state sample :=
  run [Create 1%positive; Create 2%positive; Update (VStr "1") 3%positive;
       Delete (VStr "1"); Create 4%positive] empty_state.

(** The sample store after [delete("1")] and [create(bird)]. *)
Definition sample_after : @state sample :=
  step (Create 3%positive)
       (run [Delete (VStr "1")] (sample_db, sample_world)).

(** The empty store after creating the records [cat] and [lynx], whose ids
    are ["1"] and [1]. *)
Definition twin_state : @state sample :=
  run [Create 1%positive; Create 4%positive] empty_state.

(** * Properties *)

Section Properties.
Context `{Builtins}.

Implicit Types (d : DB) (w : world) (h : gmap loc value).
Implicit Types (items : list loc) (item l : loc) (sid : string).
Implicit Types (x v id : value) (r : gmap string value).

(** ** The monad and the primitives *)

Lemma bind_Return {A B} (m : M A) (f : A → M B) (s s' : state) a :
  m s = (Return a, s') → (m ≫= f) s = f a s'.
Proof. unfold mbind, M_bind. by intros ->. Qed.

Lemma bind_Raise {A B} (m : M A) (f : A → M B) (s s' : state) e :
  m s = (Raise e, s') → (m ≫= f) s = (Raise e, s').
Proof. unfold mbind, M_bind. by intros ->. Qed.

(** One statement of a method that returns. *)
Ltac mstep := erewrite bind_Return; [|reflexivity]; cbn beta.
Ltac mstep_by lem := erewrite bind_Return; [|by apply lem]; cbn beta.

Lemma dbwrite_writable d w :
  writable d w →
  dbwrite (d, w) =
    (Return (),
     (d, World (heap w)
               (<[dbname d := File (json_dump (collection d w))]> (fs w))
               (S (writes w)))).
Proof.
  unfold writable, dbwrite. intros Hw.
  destruct (fs w !! dbname d) as [[|t]|]; done.
Qed.

Lemma dbwrite_denied d w :
  fs w !! dbname d = Some Denied →
  dbwrite (d, w) = (Raise PermissionError, (d, w)).
Proof. unfold dbwrite. by intros ->. Qed.

Lemma getitem_record x v :
  record_id x = Some v → getitem x "id" = Return v.
Proof. destruct x; simpl; try done. by intros ->. Qed.


Lemma id_is_true sid x :
  id_is sid x = true ↔ record_id x = Some (VStr sid).
Proof.
  unfold id_is. destruct (record_id x) as [v|]; [|done].
  destruct v; simpl; try done.
  rewrite bool_decide_eq_true. naive_solver.
Qed.

Lemma id_is_text sid x : id_is sid x = true → id_text x = Some sid.
Proof. rewrite id_is_true. unfold id_text. by intros ->. Qed.

(** ** The scan is a search for the first match *)

Lemma records_cons h l items :
  records h (l :: items) = (h !!! l) :: records h items.
Proof. done. Qed.

Lemma records_lookup h items i :
  records h items !! i = (λ l, h !!! l) <$> items !! i.
Proof. apply list_lookup_fmap. Qed.

Lemma records_length h items : length (records h items) = length items.
Proof. apply length_fmap. Qed.

Lemma records_insert_notin h items item x :
  item ∉ items → records (<[item := x]> h) items = records h items.
Proof.
  intros Hnotin. unfold records. apply list_fmap_ext.
  intros i l Hl. rewrite lookup_total_insert_ne; [done|].
  intros ->. apply Hnotin. by eapply list_elem_of_lookup_2.
Qed.

Lemma scan_list_find h sid items i :
  Forall is_record (records h items) →
  scan h sid items i =
    Return (match list_find (λ x, id_is sid x = true) (records h items) with
            | Some (k, _) => i + Z.of_nat k
            | None => -1
            end)%Z.
Proof.
  revert i. induction items as [|l rest IH]; intros i Hrec; [done|].
  rewrite records_cons in Hrec |- *.
  apply Forall_cons in Hrec as [[v Hv] Hrec].
  assert (id_is sid (h !!! l) = eq_str v sid) as Hid
    by (unfold id_is; by rewrite Hv).
  cbn [scan list_find]. rewrite (getitem_record _ _ Hv).
  destruct (eq_str v sid) eqn:Heq.
  - rewrite decide_True by done. f_equal. lia.
  - rewrite decide_False by (rewrite Hid; done). rewrite IH by done.
    destruct (list_find _ (records h rest)) as [[k ?]|]; simpl;
      [f_equal; lia|done].
Qed.

Lemma first_match_list_find sid recs k :
  first_match sid recs k ↔
  ∃ x, list_find (λ x, id_is sid x = true) recs = Some (k, x).
Proof.
  unfold first_match. split.
  - intros [(x & Hx & Hm) Hfirst]. exists x. apply list_find_Some.
    split_and!; [done..|]. intros j y Hy Hlt. by rewrite (Hfirst j y).
  - intros (x & (Hx & Hm & Hfirst)%list_find_Some). split; [by eauto|].
    intros j y Hlt Hy. specialize (Hfirst j y Hy Hlt).
    by destruct (id_is sid y).
Qed.

Lemma first_match_exists sid recs :
  Exists (λ x, id_is sid x = true) recs → ∃ k, first_match sid recs k.
Proof.
  intros (x & Hx & Hm)%Exists_exists.
  destruct (list_find_elem_of (λ x, id_is sid x = true) recs x Hx Hm)
    as [[k y] Hfind].
  exists k. apply first_match_list_find. eauto.
Qed.

Lemma first_match_lt sid recs k : first_match sid recs k → k < length recs.
Proof. intros [(x & Hx & _) _]. by eapply lookup_lt_Some. Qed.

Lemma scan_first_match h sid items k :
  Forall is_record (records h items) →
  first_match sid (records h items) k →
  scan h sid items 0 = Return (Z.of_nat k).
Proof.
  intros Hrec [x Hfind]%first_match_list_find.
  rewrite scan_list_find by done. by rewrite Hfind.
Qed.

Lemma scan_no_match h sid items :
  Forall is_record (records h items) →
  Forall (λ x, id_is sid x = false) (records h items) →
  scan h sid items 0 = Return (-1)%Z.
Proof.
  intros Hrec Hno. rewrite scan_list_find by done.
  assert (list_find (λ x, id_is sid x = true) (records h items) = None)
    as ->; [|done].
  apply list_find_None. eapply Forall_impl; [done|].
  intros x. simpl. by intros ->.
Qed.

(** ** Steps of the methods on a list-valued store *)

Lemma db_append_list d w items item :
  db d = DBList items →
  db_append item (d, w) =
    (Return (), (Store (dbname d) (DBList (items ++ [item])), w)).
Proof. intros Hdb. unfold db_append. mstep. simpl. by rewrite Hdb. Qed.

Lemma db_append_other d w n item :
  db d = DBOther n →
  db_append item (d, w) = (Raise AttributeError, (d, w)).
Proof. intros Hdb. unfold db_append. mstep. simpl. by rewrite Hdb. Qed.

Lemma find_record_first d w items sid k :
  db d = DBList items →
  Forall is_record (records (heap w) items) →
  first_match sid (records (heap w) items) k →
  find_record sid (d, w) = (Return (Z.of_nat k), (d, w)).
Proof.
  intros Hdb Hrec Hk. unfold find_record. simpl. rewrite Hdb.
  by rewrite (scan_first_match _ _ _ k).
Qed.

Lemma find_record_none d w items sid :
  db d = DBList items →
  Forall is_record (records (heap w) items) →
  Forall (λ x, id_is sid x = false) (records (heap w) items) →
  find_record sid (d, w) = (Return (-1)%Z, (d, w)).
Proof.
  intros Hdb Hrec Hno. unfold find_record. simpl. rewrite Hdb.
  by rewrite scan_no_match.
Qed.

Lemma db_setitem_list d w items item k :
  db d = DBList items →
  k < length items →
  db_setitem (Z.of_nat k) item (d, w) =
    (Return (), (Store (dbname d) (DBList (<[k := item]> items)), w)).
Proof.
  intros Hdb Hk. unfold db_setitem. mstep. simpl. rewrite Hdb, Nat2Z.id.
  by rewrite bool_decide_eq_true_2.
Qed.

Lemma db_pop_list d w items k :
  db d = DBList items →
  k < length items →
  db_pop (Z.of_nat k) (d, w) =
    (Return (), (Store (dbname d) (DBList (delete k items)), w)).
Proof.
  intros Hdb Hk. unfold db_pop. mstep. simpl. rewrite Hdb, Nat2Z.id.
  by rewrite bool_decide_eq_true_2.
Qed.

(** The in-memory effect of [dbcreate] on a record that carries an id; the
    write comes last. *)
Lemma dbcreate_mutates d w items item r v :
  db d = DBList items →
  heap w !!! item = VDict r →
  r !! "id" = Some v →
  dbcreate item (d, w) =
    (dbwrite ≫= λ _, mret (Reply "ok" "Annotation created successfully"))
      (Store (dbname d) (DBList (items ++ [item])),
       World (<[item := VDict (<["id" := VStr (py_str v)]> r)]> (heap w))
             (fs w) (writes w)).
Proof.
  intros Hdb Hitem Hid. unfold dbcreate.
  mstep. simpl. rewrite Hitem.
  erewrite bind_Return by (unfold lift; simpl; rewrite Hid; reflexivity).
  mstep. mstep. by mstep_by db_append_list.
Qed.

(** The in-memory effect of [dbupdate] when the scan finds a record. *)
Lemma dbupdate_mutates d w items id item r k :
  db d = DBList items →
  Forall is_record (records (heap w) items) →
  first_match (py_str id) (records (heap w) items) k →
  heap w !!! item = VDict r →
  dbupdate id item (d, w) =
    (dbwrite ≫= λ _, mret (Reply "ok" "Annotation updated successfully"))
      (Store (dbname d) (DBList (<[k := item]> items)),
       World (<[item := VDict (<["id" := VStr (py_str id)]> r)]> (heap w))
             (fs w) (writes w)).
Proof.
  intros Hdb Hrec Hk Hitem. unfold dbupdate.
  erewrite bind_Return by (by eapply find_record_first).
  rewrite bool_decide_eq_true_2 by lia.
  mstep. simpl. rewrite Hitem. mstep. mstep.
  erewrite bind_Return; [done|]. apply db_setitem_list; [done|].
  apply first_match_lt in Hk. by rewrite records_length in Hk.
Qed.

Lemma dbupdate_missing d w items id item :
  db d = DBList items →
  Forall is_record (records (heap w) items) →
  Forall (λ x, id_is (py_str id) x = false) (records (heap w) items) →
  dbupdate id item (d, w) =
    (Return (Reply "err" "Error in updating annotation"), (d, w)).
Proof.
  intros Hdb Hrec Hno. unfold dbupdate.
  erewrite bind_Return by (by eapply find_record_none).
  by rewrite bool_decide_eq_false_2 by lia.
Qed.

(** The in-memory effect of [dbdelete] when the scan finds a record. *)
Lemma dbdelete_mutates d w items id k :
  db d = DBList items →
  Forall is_record (records (heap w) items) →
  first_match (py_str id) (records (heap w) items) k →
  dbdelete id (d, w) =
    (dbwrite ≫= λ _, mret (Reply "ok" "Annotation deleted successfully"))
      (Store (dbname d) (DBList (delete k items)), w).
Proof.
  intros Hdb Hrec Hk. unfold dbdelete.
  erewrite bind_Return by (by eapply find_record_first).
  rewrite bool_decide_eq_true_2 by lia.
  erewrite bind_Return; [done|]. apply db_pop_list; [done|].
  apply first_match_lt in Hk. by rewrite records_length in Hk.
Qed.

Lemma dbdelete_missing d w items id :
  db d = DBList items →
  Forall is_record (records (heap w) items) →
  Forall (λ x, id_is (py_str id) x = false) (records (heap w) items) →
  dbdelete id (d, w) =
    (Return (Reply "err" "Error in deleting annotation"), (d, w)).
Proof.
  intros Hdb Hrec Hno. unfold dbdelete.
  erewrite bind_Return by (by eapply find_record_none).
  by rewrite bool_decide_eq_false_2 by lia.
Qed.

Lemma collection_list d w items :
  db d = DBList items → collection d w = VList (records (heap w) items).
Proof. unfold collection. by intros ->. Qed.

(** ** Update *)

(** C1: when some record of the collection has the id [str(id)],
    [dbupdate id item] puts [item], with its [id] field set to [str(id)], at
    the position [k] of the first such record; every other position keeps
    its object, every object other than [item] keeps its contents, the
    backing file receives the new collection in one write, and the reply has
    status ok. *)
Theorem dbupdate_replaces_first_match d w items id item r :
  db d = DBList items →
  Forall is_record (records (heap w) items) →
  Exists (λ x, id_is (py_str id) x = true) (records (heap w) items) →
  heap w !!! item = VDict r →
  writable d w →
  let rec' := VDict (<["id" := VStr (py_str id)]> r) in
  ∃ k d' w',
    first_match (py_str id) (records (heap w) items) k
    ∧ dbupdate id item (d, w)
        = (Return (Reply "ok" "Annotation updated successfully"), (d', w'))
    ∧ dbname d' = dbname d
    ∧ db d' = DBList (<[k := item]> items)
    ∧ heap w' = <[item := rec']> (heap w)
    ∧ fs w' = <[dbname d := File (json_dump (collection d' w'))]> (fs w)
    ∧ writes w' = S (writes w)
    ∧ collection d' w' = VList (<[k := rec']> (records (heap w') items))
    ∧ (∀ j l, items !! j = Some l → l ≠ item →
         records (heap w') items !! j = records (heap w) items !! j)
    ∧ (item ∉ items →
         collection d' w' = VList (<[k := rec']> (records (heap w) items))).
Proof.
  intros Hdb Hrec Hex Hitem Hw rec'.
  destruct (first_match_exists _ _ Hex) as [k Hk].
  assert (∀ f n,
            collection
              (Store (dbname d) (DBList (<[k := item]> items)))
              (World (<[item := rec']> (heap w)) f n)
            = VList (<[k := rec']> (records (<[item := rec']> (heap w)) items)))
    as Hcoll.
  { intros f n. unfold collection, records. simpl. rewrite list_fmap_insert.
    by rewrite lookup_total_insert_eq. }
  eexists k, _, _. split; [exact Hk|]. split.
  { rewrite (dbupdate_mutates _ _ _ _ _ _ _ Hdb Hrec Hk Hitem).
    mstep_by dbwrite_writable. reflexivity. }
  split_and!; try done.
  - intros j l Hl Hne. simpl. rewrite !records_lookup, Hl. simpl.
    by rewrite lookup_total_insert_ne.
  - intros Hnotin. rewrite Hcoll. by rewrite records_insert_notin.
Qed.

(** C3: when no record of the collection has the id [str(id)],
    [dbupdate id item] returns the reply with status err and leaves the
    store object, the heap and the file system as they were; no write is
    counted. *)
Theorem dbupdate_not_found d w items id item :
  db d = DBList items →
  Forall is_record (records (heap w) items) →
  Forall (λ x, id_is (py_str id) x = false) (records (heap w) items) →
  ∃ d' w',
    dbupdate id item (d, w)
      = (Return (Reply "err" "Error in updating annotation"), (d', w'))
    ∧ d' = d
    ∧ w' = w
    ∧ collection d' w' = collection d w
    ∧ writes w' = writes w.
Proof.
  intros Hdb Hrec Hno. exists d, w. split_and!; try done.
  by eapply dbupdate_missing.
Qed.

(** ** Create *)

(** C2: for a record that carries an [id], [dbcreate] sets the [id] field to
    its string form, appends the record at the end of the collection, writes
    the whole collection to the backing file and returns the reply with
    status ok, whatever ids the collection already holds: a record that had
    this id before still has it afterwards.  When no record had an id of
    this string form, the earlier records are as before and the last
    position is the only one with this id. *)
Theorem dbcreate_appends d w items item r v :
  db d = DBList items →
  heap w !!! item = VDict r →
  r !! "id" = Some v →
  writable d w →
  let sid := py_str v in
  let rec' := VDict (<["id" := VStr sid]> r) in
  ∃ d' w',
    dbcreate item (d, w)
      = (Return (Reply "ok" "Annotation created successfully"), (d', w'))
    ∧ dbname d' = dbname d
    ∧ db d' = DBList (items ++ [item])
    ∧ heap w' = <[item := rec']> (heap w)
    ∧ fs w' = <[dbname d := File (json_dump (collection d' w'))]> (fs w)
    ∧ writes w' = S (writes w)
    ∧ collection d' w' = VList (records (heap w') items ++ [rec'])
    ∧ (∀ i x, records (heap w) items !! i = Some x → id_is sid x = true →
         ∃ y, records (heap w') items !! i = Some y ∧ id_is sid y = true)
    ∧ (Forall (λ x, id_text x ≠ Some sid) (records (heap w) items) →
         records (heap w') items = records (heap w) items
         ∧ ∀ i x, (records (heap w') items ++ [rec']) !! i = Some x →
             id_text x = Some sid → i = length items).
Proof.
  intros Hdb Hitem Hid Hw sid rec'.
  eexists _, _. split_and!.
  - rewrite (dbcreate_mutates _ _ _ _ _ _ Hdb Hitem Hid).
    mstep_by dbwrite_writable. reflexivity.
  - done.
  - done.
  - done.
  - done.
  - done.
  - unfold collection, records. simpl. rewrite fmap_app. simpl.
    by rewrite lookup_total_insert_eq.
  - intros i x Hx Hm. simpl. rewrite records_lookup in Hx |- *.
    destruct (items !! i) as [l|] eqn:Hl; simplify_eq/=.
    eexists; split; [done|].
    destruct (decide (l = item)) as [->|Hne].
    + rewrite lookup_total_insert_eq. apply id_is_true. simpl.
      by rewrite lookup_insert_eq.
    + by rewrite lookup_total_insert_ne.
  - intros Hfresh. simpl.
    assert (item ∉ items) as Hnotin.
    { intros Hin. rewrite Forall_forall in Hfresh.
      apply (Hfresh (heap w !!! item)).
      - unfold records. apply list_elem_of_fmap. eauto.
      - unfold id_text. rewrite Hitem. simpl. by rewrite Hid. }
    rewrite records_insert_notin by done.
    split; [done|].
    intros i x Hx Htext.
    destruct (decide (i < length items)) as [Hlt|Hge].
    + rewrite lookup_app_l in Hx by (by rewrite records_length).
      rewrite Forall_forall in Hfresh. exfalso.
      eapply Hfresh; [|done]. by eapply list_elem_of_lookup_2.
    + apply lookup_lt_Some in Hx.
      rewrite length_app, records_length in Hx. simpl in Hx. lia.
Qed.

(** ** Delete *)

(** C4: when some record of the collection has the id [str(id)], [dbdelete]
    removes the record at the position of the first such record and no
    other, so the collection is one shorter and the later records, those
    with the same id among them, stay; the file receives the new collection
    in one write and the reply has status ok.  When no record has that id,
    the reply has status err and nothing changes; no write is counted. *)
Theorem dbdelete_first_match d w items id :
  db d = DBList items →
  Forall is_record (records (heap w) items) →
  let recs := records (heap w) items in
  (Exists (λ x, id_is (py_str id) x = true) recs →
   writable d w →
   ∃ k d' w',
     first_match (py_str id) recs k
     ∧ dbdelete id (d, w)
         = (Return (Reply "ok" "Annotation deleted successfully"), (d', w'))
     ∧ dbname d' = dbname d
     ∧ db d' = DBList (delete k items)
     ∧ heap w' = heap w
     ∧ fs w' = <[dbname d := File (json_dump (collection d' w'))]> (fs w)
     ∧ writes w' = S (writes w)
     ∧ collection d' w' = VList (take k recs ++ drop (S k) recs)
     ∧ S (length (delete k items)) = length items)
  ∧ (Forall (λ x, id_is (py_str id) x = false) recs →
     ∃ d' w',
       dbdelete id (d, w)
         = (Return (Reply "err" "Error in deleting annotation"), (d', w'))
       ∧ d' = d
       ∧ w' = w
       ∧ collection d' w' = collection d w
       ∧ writes w' = writes w).
Proof.
  intros Hdb Hrec recs. split.
  - intros Hex Hw. destruct (first_match_exists _ _ Hex) as [k Hk].
    eexists k, _, _. split; [exact Hk|]. split.
    { rewrite (dbdelete_mutates _ _ _ _ _ Hdb Hrec Hk).
      mstep_by dbwrite_writable. reflexivity. }
    split_and!; try done.
    + unfold collection, records. simpl.
      by rewrite list_fmap_delete, delete_take_drop.
    + apply first_match_lt in Hk. unfold recs in Hk.
      rewrite records_length in Hk. rewrite length_delete; [lia|].
      by apply lookup_lt_is_Some_2.
  - intros Hno. exists d, w. split_and!; try done.
    by eapply dbdelete_missing.
Qed.

(** C8 (amended): when exactly one record of the collection has the id
    [str(id)], the first [dbdelete id] returns status ok and a second one
    returns status err and leaves the state that the first deletion
    produced. *)
Theorem dbdelete_twice d w items id :
  db d = DBList items →
  Forall is_record (records (heap w) items) →
  writable d w →
  let recs := records (heap w) items in
  Exists (λ x, id_is (py_str id) x = true) recs →
  (∀ i j x y, recs !! i = Some x → recs !! j = Some y →
     id_is (py_str id) x = true → id_is (py_str id) y = true → i = j) →
  ∃ s1,
    dbdelete id (d, w)
      = (Return (Reply "ok" "Annotation deleted successfully"), s1)
    ∧ dbdelete id s1
      = (Return (Reply "err" "Error in deleting annotation"), s1).
Proof.
  intros Hdb Hrec Hw recs Hex Hone.
  destruct (first_match_exists _ _ Hex) as [k Hk].
  eexists. split.
  { rewrite (dbdelete_mutates _ _ _ _ _ Hdb Hrec Hk).
    mstep_by dbwrite_writable. reflexivity. }
  destruct Hk as [(x & Hx & Hm) _].
  assert (records (heap w) (delete k items) = delete k recs) as Hdel
    by apply list_fmap_delete.
  eapply dbdelete_missing; [done|..]; simpl; rewrite Hdel.
  - apply Forall_lookup. intros j y Hy.
    rewrite list_lookup_delete in Hy.
    eapply Forall_lookup_1 in Hy; [done|done].
  - apply Forall_lookup. intros j y Hy.
    destruct (id_is (py_str id) y) eqn:Hyid; [exfalso|done].
    rewrite list_lookup_delete in Hy. case_decide.
    + specialize (Hone _ _ _ _ Hx Hy Hm Hyid). lia.
    + specialize (Hone _ _ _ _ Hx Hy Hm Hyid). lia.
Qed.

(** ** What a call leaves in memory, whether or not the write succeeds *)

Lemma bind_inv {A B} (m : M A) (f : A → M B) (s s' : state) b :
  (m ≫= f) s = (Return b, s') →
  ∃ a s1, m s = (Return a, s1) ∧ f a s1 = (Return b, s').
Proof.
  unfold mbind, M_bind. destruct (m s) as [[a|e] s1]; [eauto|done].
Qed.

Lemma dbwrite_inv d w u (s' : state) :
  dbwrite (d, w) = (Return u, s') →
  s' = (d, World (heap w)
                 (<[dbname d := File (json_dump (collection d w))]> (fs w))
                 (S (writes w))).
Proof.
  unfold dbwrite. destruct (fs w !! dbname d) as [[|t]|]; naive_solver.
Qed.

Lemma after_write d w (rep : reply) :
  let s' := ((dbwrite ≫= λ _, mret rep) (d, w)).2 in
  s'.1 = d ∧ heap s'.2 = heap w.
Proof.
  simpl. unfold mbind, M_bind, dbwrite.
  by destruct (fs w !! dbname d) as [[|t]|].
Qed.

(** C10: [dbcreate], and [dbupdate] when it finds the id, write the string
    id into the caller's object itself and store that very reference: after
    the call the heap differs from the old one at [item] only, where the
    [id] field alone has changed, the collection holds the reference [item]
    (at the end, or at the position of the match), and so whatever is
    written to that object later shows in the collection. *)
Theorem stored_record_is_argument d w items item r :
  db d = DBList items →
  heap w !!! item = VDict r →
  (∀ v, r !! "id" = Some v →
     let s' := (dbcreate item (d, w)).2 in
     let r' := <["id" := VStr (py_str v)]> r in
     heap s'.2 = <[item := VDict r']> (heap w)
     ∧ db s'.1 = DBList (items ++ [item])
     ∧ (∀ key, key ≠ "id" → r' !! key = r !! key)
     ∧ (∀ l, l ≠ item → heap s'.2 !!! l = heap w !!! l)
     ∧ (∀ x, records (<[item := x]> (heap s'.2)) (items ++ [item])
               !! length items = Some x))
  ∧ (∀ id k,
     Forall is_record (records (heap w) items) →
     first_match (py_str id) (records (heap w) items) k →
     let s' := (dbupdate id item (d, w)).2 in
     let r' := <["id" := VStr (py_str id)]> r in
     heap s'.2 = <[item := VDict r']> (heap w)
     ∧ db s'.1 = DBList (<[k := item]> items)
     ∧ (∀ key, key ≠ "id" → r' !! key = r !! key)
     ∧ (∀ l, l ≠ item → heap s'.2 !!! l = heap w !!! l)
     ∧ (∀ x, records (<[item := x]> (heap s'.2)) (<[k := item]> items)
               !! k = Some x)).
Proof.
  intros Hdb Hitem. split.
  - intros v Hid s' r'. unfold s'.
    rewrite (dbcreate_mutates _ _ _ _ _ _ Hdb Hitem Hid).
    match goal with |- context [(dbwrite ≫= ?f) (?d0, ?w0)] =>
      destruct (after_write d0 w0
                  (Reply "ok" "Annotation created successfully")) as [Hd Hh]
    end.
    simpl in Hd, Hh. rewrite Hd, Hh. simpl. split_and!; try done.
    + intros key Hkey. by apply lookup_insert_ne.
    + intros l Hl. by rewrite lookup_total_insert_ne.
    + intros x. rewrite records_lookup.
      rewrite lookup_app_r, Nat.sub_diag by done. simpl.
      by rewrite lookup_total_insert_eq.
  - intros id k Hrec Hk s' r'. unfold s'.
    rewrite (dbupdate_mutates _ _ _ _ _ _ _ Hdb Hrec Hk Hitem).
    match goal with |- context [(dbwrite ≫= ?f) (?d0, ?w0)] =>
      destruct (after_write d0 w0
                  (Reply "ok" "Annotation updated successfully")) as [Hd Hh]
    end.
    simpl in Hd, Hh. rewrite Hd, Hh. simpl. split_and!; try done.
    + intros key Hkey. by apply lookup_insert_ne.
    + intros l Hl. by rewrite lookup_total_insert_ne.
    + intros x. rewrite records_lookup.
      rewrite list_lookup_insert_eq. 2:{
        apply first_match_lt in Hk. by rewrite records_length in Hk. }
      simpl. by rewrite lookup_total_insert_eq.
Qed.

(** ** The replies of [dbcreate] *)

Lemma dbcreate_Return item (s s' : state) rep :
  dbcreate item s = (Return rep, s') →
  rep = Reply "ok" "Annotation created successfully".
Proof.
  unfold dbcreate. intros Hrun.
  apply bind_inv in Hrun as (obj & s1 & _ & Hrun).
  apply bind_inv in Hrun as (v & s2 & _ & Hrun).
  apply bind_inv in Hrun as (obj' & s3 & _ & Hrun).
  apply bind_inv in Hrun as (u1 & s4 & _ & Hrun).
  apply bind_inv in Hrun as (u2 & s5 & _ & Hrun).
  apply bind_inv in Hrun as (u3 & s6 & _ & Hrun).
  unfold mret, M_ret in Hrun. by simplify_eq.
Qed.

(** C9: [dbcreate] has one reply, the one with status ok: every run either
    returns it or raises.  So [create_annotation] answers 200 with that
    reply or 500 with the exception, never 400.  For a record that carries
    an [id], on a list-valued store whose file can be written, the run
    returns. *)
Theorem dbcreate_has_no_err_reply (s : state) item :
  (∀ rep s', dbcreate item s = (Return rep, s') → status rep = "ok")
  ∧ (∃ resp s',
       create_annotation item s = (Return resp, s')
       ∧ code resp ≠ 400%Z
       ∧ ((code resp = 200%Z
           ∧ ∃ rep, payload resp = Envelope rep ∧ status rep = "ok"
                    ∧ dbcreate item s = (Return rep, s'))
          ∨ (code resp = 500%Z
             ∧ ∃ e, payload resp = Failure e
                    ∧ dbcreate item s = (Raise e, s'))))
  ∧ (∀ items r v,
       db s.1 = DBList items →
       heap s.2 !!! item = VDict r →
       r !! "id" = Some v →
       writable s.1 s.2 →
       ∃ s', dbcreate item s
               = (Return (Reply "ok" "Annotation created successfully"), s')
             ∧ create_annotation item s
               = (Return (Response 200
                            (Envelope
                               (Reply "ok" "Annotation created successfully"))),
                  s')).
Proof.
  split_and!.
  - intros rep s' Hrun. by rewrite (dbcreate_Return _ _ _ _ Hrun).
  - unfold create_annotation, respond.
    destruct (dbcreate item s) as [[rep|e] s'] eqn:Hrun.
    + pose proof (dbcreate_Return _ _ _ _ Hrun) as ->. simpl.
      eexists _, _. split; [done|]. split; [done|]. left. eauto.
    + eexists _, _. split; [done|]. split; [done|]. right. eauto.
  - intros items r v Hdb Hitem Hid Hw. destruct s as [d w]. simpl in *.
    assert (∃ s', dbcreate item (d, w)
              = (Return (Reply "ok" "Annotation created successfully"), s'))
      as [s' Hrun].
    { rewrite (dbcreate_mutates _ _ _ _ _ _ Hdb Hitem Hid).
      eexists. mstep_by dbwrite_writable. reflexivity. }
    exists s'. split; [done|].
    unfold create_annotation, respond. by rewrite Hrun.
Qed.

(** ** Loading *)

(** C6 (amended): [DB.__init__] yields the empty collection, without
    raising and without touching the world, when the path does not exist
    and when [json.load] raises [JSONDecodeError] on the file's contents;
    the two cases give the same store.  Any other failure is not caught: a
    file that [open] refuses raises [PermissionError], and any other
    exception of [json.load] leaves the constructor. *)
Theorem DB_init_load_failures name w :
  (fs w !! name = None →
     DB_init name w = (Return (Store name (DBList [])), w))
  ∧ (∀ t, fs w !! name = Some (File t) →
       json_load t = Raise JSONDecodeError →
       DB_init name w = (Return (Store name (DBList [])), w))
  ∧ collection (Store name (DBList [])) w = VList []
  ∧ (fs w !! name = Some Denied →
       DB_init name w = (Raise PermissionError, w))
  ∧ (∀ t e, fs w !! name = Some (File t) →
       json_load t = Raise e →
       caught e = false →
       DB_init name w = (Raise e, w)).
Proof.
  unfold DB_init, read_and_load, open_read. split_and!.
  - by intros ->.
  - by intros t -> ->.
  - done.
  - by intros ->.
  - by intros t e -> -> ->.
Qed.

Lemma alloc_list_records h vs ls h' :
  alloc_list h vs = (ls, h') → records h' ls = vs ∧ h ⊆ h'.
Proof.
  revert h ls h'. induction vs as [|v vs IH]; intros h ls h' Halloc.
  - by simplify_eq/=.
  - simpl in Halloc.
    destruct (alloc_list (<[fresh (dom h) := v]> h) vs) as [ls' h2] eqn:Hrest.
    simplify_eq. apply IH in Hrest as [Hrecs Hsub].
    assert (h !! fresh (dom h) = None) as Hfresh
      by apply not_elem_of_dom, is_fresh.
    split.
    + rewrite records_cons. f_equal; [|done].
      apply lookup_total_correct. eapply lookup_weaken; [|done].
      apply lookup_insert_eq.
    + etrans; [|done]. by apply insert_subseteq.
Qed.

Lemma bind_loaded_collection h v (a : dbattr) h' name f n :
  bind_loaded h v = (a, h') →
  collection (Store name a) (World h' f n) = v.
Proof.
  unfold collection. destruct v; simpl; intros Hb; simplify_eq/=; try done.
  destruct (alloc_list h l) as [ls h2] eqn:Halloc. simplify_eq/=.
  apply alloc_list_records in Halloc as [-> _]. done.
Qed.

(** Loading the file that holds the dump of a value binds that value. *)
Lemma DB_init_dumped name w v :
  json_roundtrip →
  fs w !! name = Some (File (json_dump v)) →
  ∃ d2 w2,
    DB_init name w = (Return d2, w2)
    ∧ collection d2 w2 = v
    ∧ dbname d2 = name
    ∧ fs w2 = fs w
    ∧ writes w2 = writes w.
Proof.
  intros Hrt Hfile. unfold DB_init, read_and_load, open_read.
  rewrite Hfile, Hrt.
  destruct (bind_loaded (heap w) v) as [a h'] eqn:Hb.
  eexists _, _. split; [done|]. split_and!; try done.
  by eapply bind_loaded_collection.
Qed.

Lemma write_then_reply (rep rep' : reply) (s s' : state) :
  (dbwrite ≫= λ _, mret rep) s = (Return rep', s') →
  fs s'.2 !! dbname s'.1 = Some (File (json_dump (collection s'.1 s'.2))).
Proof.
  intros (u & s1 & Hw & Hret)%bind_inv. destruct s as [d w].
  apply dbwrite_inv in Hw as ->. unfold mret, M_ret in Hret.
  simplify_eq/=. by rewrite lookup_insert_eq.
Qed.

(** A call that returns status ok has just written the collection. *)
Lemma exec_ok_written o (s s' : state) rep :
  exec o s = (Return rep, s') →
  status rep = "ok" →
  fs s'.2 !! dbname s'.1 = Some (File (json_dump (collection s'.1 s'.2))).
Proof.
  destruct o as [item|id item|id]; simpl; intros Hrun Hok.
  - unfold dbcreate in Hrun.
    apply bind_inv in Hrun as (obj & s1 & _ & Hrun).
    apply bind_inv in Hrun as (v & s2 & _ & Hrun).
    apply bind_inv in Hrun as (obj' & s3 & _ & Hrun).
    apply bind_inv in Hrun as (u1 & s4 & _ & Hrun).
    apply bind_inv in Hrun as (u2 & s5 & _ & Hrun).
    by eapply write_then_reply.
  - unfold dbupdate in Hrun.
    apply bind_inv in Hrun as (idx & s1 & _ & Hrun).
    case_bool_decide.
    + apply bind_inv in Hrun as (obj & s2 & _ & Hrun).
      apply bind_inv in Hrun as (obj' & s3 & _ & Hrun).
      apply bind_inv in Hrun as (u1 & s4 & _ & Hrun).
      apply bind_inv in Hrun as (u2 & s5 & _ & Hrun).
      by eapply write_then_reply.
    + unfold mret, M_ret in Hrun. by simplify_eq/=.
  - unfold dbdelete in Hrun.
    apply bind_inv in Hrun as (idx & s1 & _ & Hrun).
    case_bool_decide.
    + apply bind_inv in Hrun as (u2 & s5 & _ & Hrun).
      by eapply write_then_reply.
    + unfold mret, M_ret in Hrun. by simplify_eq/=.
Qed.

(** C5: after any sequence of calls, when one more call returns status ok,
    a store constructed from the backing file as that call left it holds a
    collection equal to the one in memory; the [json] module's round trip is
    the only assumption.  The load writes nothing. *)
Theorem reload_after_mutation (ops : list op) (o : op) (s0 s' : state) rep :
  json_roundtrip →
  exec o (run ops s0) = (Return rep, s') →
  status rep = "ok" →
  ∃ d2 w2,
    DB_init (dbname s'.1) s'.2 = (Return d2, w2)
    ∧ collection d2 w2 = collection s'.1 s'.2
    ∧ dbname d2 = dbname s'.1
    ∧ fs w2 = fs s'.2
    ∧ writes w2 = writes s'.2.
Proof.
  intros Hrt Hrun Hok. apply DB_init_dumped; [done|].
  by eapply exec_ok_written.
Qed.

(** ** What one call does to the collection and the heap *)

Lemma getitem_Raise x :
  record_id x = None → ∃ e, getitem x "id" = Raise e.
Proof. destruct x; simpl; eauto. intros ->. eauto. Qed.

Lemma dbcreate_not_record d w item :
  record_id (heap w !!! item) = None →
  ∃ e, dbcreate item (d, w) = (Raise e, (d, w)).
Proof.
  intros [e He]%getitem_Raise. exists e. unfold dbcreate. mstep.
  erewrite bind_Raise; [done|]. unfold lift. simpl. by rewrite He.
Qed.

Lemma dbupdate_not_dict d w items id item k :
  db d = DBList items →
  Forall is_record (records (heap w) items) →
  first_match (py_str id) (records (heap w) items) k →
  (∀ r, heap w !!! item ≠ VDict r) →
  dbupdate id item (d, w) = (Raise TypeError, (d, w)).
Proof.
  intros Hdb Hrec Hk Hitem. unfold dbupdate.
  erewrite bind_Return by (by eapply find_record_first).
  rewrite bool_decide_eq_true_2 by lia. mstep.
  erewrite bind_Raise; [done|]. unfold lift. simpl.
  destruct (heap w !!! item) eqn:Hobj; try done. by destruct (Hitem d0).
Qed.

(** A scan over records either finds a first match or finds none. *)
Lemma first_match_or_none sid recs :
  (∃ k, first_match sid recs k) ∨ Forall (λ x, id_is sid x = false) recs.
Proof.
  destruct (list_find (λ x, id_is sid x = true) recs) as [[k x]|] eqn:Hfind.
  - left. exists k. apply first_match_list_find. eauto.
  - right. apply list_find_None in Hfind.
    eapply Forall_impl; [done|]. intros x. simpl. by destruct (id_is sid x).
Qed.

(** The effect of any call on [self.db] and on the heap, for a store whose
    records all carry an id. *)
Lemma step_cases o d w items :
  db d = DBList items →
  Forall is_record (records (heap w) items) →
  let s' := step o (d, w) in
  (db s'.1 = DBList items ∧ heap s'.2 = heap w)
  ∨ (∃ item r v,
       o = Create item ∧ heap w !!! item = VDict r ∧ r !! "id" = Some v
       ∧ db s'.1 = DBList (items ++ [item])
       ∧ heap s'.2 = <[item := VDict (<["id" := VStr (py_str v)]> r)]> (heap w))
  ∨ (∃ id item r k,
       o = Update id item ∧ heap w !!! item = VDict r
       ∧ first_match (py_str id) (records (heap w) items) k
       ∧ db s'.1 = DBList (<[k := item]> items)
       ∧ heap s'.2 = <[item := VDict (<["id" := VStr (py_str id)]> r)]> (heap w))
  ∨ (∃ id k,
       o = Delete id
       ∧ first_match (py_str id) (records (heap w) items) k
       ∧ db s'.1 = DBList (delete k items)
       ∧ heap s'.2 = heap w).
Proof.
  intros Hdb Hrec. unfold step. destruct o as [item|id item|id]; simpl.
  - destruct (record_id (heap w !!! item)) as [v|] eqn:Hid.
    + destruct (heap w !!! item) as [| | | |?|r] eqn:Hitem; try done.
      simpl in Hid. right; left. exists item, r, v.
      rewrite (dbcreate_mutates _ _ _ _ _ _ Hdb Hitem Hid).
      match goal with |- context [(dbwrite ≫= ?f) (?d0, ?w0)] =>
        destruct (after_write d0 w0
                    (Reply "ok" "Annotation created successfully")) as [Hd Hh]
      end.
      simpl in Hd, Hh. by rewrite Hd, Hh.
    + destruct (dbcreate_not_record d w item Hid) as [e ->]. by left.
  - destruct (first_match_or_none (py_str id) (records (heap w) items))
      as [[k Hk]|Hno].
    + destruct (heap w !!! item) as [| | | |?|r] eqn:Hitem;
        try (rewrite (dbupdate_not_dict _ _ _ _ _ k Hdb Hrec Hk)
               by (by rewrite Hitem); by left).
      right; right; left. exists id, item, r, k.
      rewrite (dbupdate_mutates _ _ _ _ _ _ _ Hdb Hrec Hk Hitem).
      match goal with |- context [(dbwrite ≫= ?f) (?d0, ?w0)] =>
        destruct (after_write d0 w0
                    (Reply "ok" "Annotation updated successfully")) as [Hd Hh]
      end.
      simpl in Hd, Hh. by rewrite Hd, Hh.
    + rewrite (dbupdate_missing _ _ _ _ _ Hdb Hrec Hno). by left.
  - destruct (first_match_or_none (py_str id) (records (heap w) items))
      as [[k Hk]|Hno].
    + right; right; right. exists id, k.
      rewrite (dbdelete_mutates _ _ _ _ _ Hdb Hrec Hk).
      match goal with |- context [(dbwrite ≫= ?f) (?d0, ?w0)] =>
        destruct (after_write d0 w0
                    (Reply "ok" "Annotation deleted successfully")) as [Hd Hh]
      end.
      simpl in Hd, Hh. by rewrite Hd, Hh.
    + rewrite (dbdelete_missing _ _ _ _ Hdb Hrec Hno). by left.
Qed.

(** ** Ids of the reachable collections *)

Lemma records_insert_Forall (P : value → Prop) h items item x :
  Forall P (records h items) → P x →
  Forall P (records (<[item := x]> h) items).
Proof.
  unfold records. rewrite !Forall_fmap. intros Hall Hx.
  eapply Forall_impl; [done|]. intros l Hl. simpl in *.
  destruct (decide (l = item)) as [->|Hne].
  - by rewrite lookup_total_insert_eq.
  - by rewrite lookup_total_insert_ne.
Qed.

Lemma string_ids_records h items :
  Forall (λ x, ∃ sid, record_id x = Some (VStr sid)) (records h items) →
  Forall is_record (records h items).
Proof.
  intros Hids. eapply Forall_impl; [done|].
  intros x [sid Hx]. unfold is_record. by rewrite Hx.
Qed.

Lemma string_ids_step o (s : state) : string_ids s → string_ids (step o s).
Proof.
  destruct s as [d w]. intros (items & Hdb & Hids). simpl in Hdb, Hids.
  pose proof (string_ids_records _ _ Hids) as Hrec.
  destruct (step_cases o d w items Hdb Hrec)
    as [[Hdb' Hh]|[(item & r & v & _ & _ & _ & Hdb' & Hh)
       |[(id & item & r & k & _ & _ & _ & Hdb' & Hh)
        |(id & k & _ & _ & Hdb' & Hh)]]];
    unfold string_ids; rewrite Hdb', Hh; eexists; (split; [done|]).
  - done.
  - assert (∃ sid, record_id (VDict (<["id" := VStr (py_str v)]> r))
                   = Some (VStr sid)) as Hnew
      by (eexists; simpl; apply lookup_insert_eq).
    unfold records. rewrite fmap_app. apply Forall_app. split.
    + by apply records_insert_Forall.
    + apply Forall_singleton. by rewrite lookup_total_insert_eq.
  - assert (∃ sid, record_id (VDict (<["id" := VStr (py_str id)]> r))
                   = Some (VStr sid)) as Hnew
      by (eexists; simpl; apply lookup_insert_eq).
    unfold records. rewrite list_fmap_insert. apply Forall_insert.
    + by apply records_insert_Forall.
    + by rewrite lookup_total_insert_eq.
  - unfold records. rewrite list_fmap_delete. by apply Forall_delete.
Qed.

Lemma unique_ids_step o (s : state) :
  string_ids s → unique_ids s → fresh_call o s → unique_ids (step o s).
Proof.
  destruct s as [d w]. intros (items & Hdb & Hids) (items' & Hdb2 & Hnd).
  simpl in Hdb, Hids, Hdb2, Hnd.
  assert (items' = items) as -> by congruence. clear Hdb2.
  unfold fresh_call. simpl. rewrite Hdb. intros Hfresh.
  pose proof (string_ids_records _ _ Hids) as Hrec.
  destruct (step_cases o d w items Hdb Hrec)
    as [[Hdb' Hh]|[(item & r & v & -> & Hitem & Hid & Hdb' & Hh)
       |[(id & item & r & k & -> & Hitem & Hk & Hdb' & Hh)
        |(id & k & -> & Hk & Hdb' & Hh)]]];
    unfold unique_ids; rewrite Hdb', Hh; eexists; (split; [done|]).
  - done.
  - assert (id_text (heap w !!! item) = Some (py_str v)) as Htext
      by (unfold id_text; rewrite Hitem; simpl; by rewrite Hid).
    specialize (Hfresh _ Htext).
    assert (item ∉ items) as Hnotin.
    { intros Hin. rewrite Forall_forall in Hfresh.
      apply (Hfresh (heap w !!! item)); [|done].
      unfold records. apply list_elem_of_fmap. eauto. }
    unfold records at 1. rewrite fmap_app.
    fold (records (<[item:=VDict (<["id":=VStr (py_str v)]> r)]> (heap w)) items).
    rewrite records_insert_notin by done. simpl.
    rewrite lookup_total_insert_eq. rewrite fmap_app. simpl.
    apply NoDup_app. split_and!; [done| |apply NoDup_singleton].
    intros t (x & -> & Hx)%list_elem_of_fmap Hin.
    apply list_elem_of_singleton in Hin.
    rewrite Forall_forall in Hfresh. apply (Hfresh x Hx).
    rewrite Hin. unfold id_text. simpl. by rewrite lookup_insert_eq.
  - unfold records at 1. rewrite list_fmap_insert.
    fold (records (<[item:=VDict (<["id":=VStr (py_str id)]> r)]> (heap w)) items).
    rewrite records_insert_notin by done.
    rewrite lookup_total_insert_eq, list_fmap_insert.
    rewrite list_insert_id; [done|].
    destruct Hk as [(x & Hx & Hm) _]. rewrite list_lookup_fmap, Hx. simpl.
    rewrite (id_is_text _ _ Hm). unfold id_text. simpl.
    by rewrite lookup_insert_eq.
  - unfold records. rewrite !list_fmap_delete.
    eapply sublist_NoDup; [exact Hnd|]. apply sublist_delete.
Qed.

(** C7 (amended): in every collection reachable from an empty store, each
    record has a string for its [id]; and when every created record had an
    id whose string form was not in the collection, and every record given
    to an update was an object the collection did not hold, no two records
    have the same id. *)
Theorem ids_of_reachable_stores :
  (∀ s, reachable s → string_ids s)
  ∧ (∀ s, reachable_fresh s → string_ids s ∧ unique_ids s).
Proof.
  split.
  - induction 1 as [name w|o s _ IH].
    + exists []. split; [done|]. constructor.
    + by apply string_ids_step.
  - induction 1 as [name w|o s _ [IHs IHu] Hfresh].
    + split; exists []; (split; [done|]); constructor.
    + split; [by apply string_ids_step|by apply unique_ids_step].
Qed.

(** * Further properties of the methods *)

Lemma write_reply_unfold d w (rep : reply) :
  (dbwrite ≫= λ _, mret rep) (d, w) =
    match fs w !! dbname d with
    | Some Denied => (Raise PermissionError, (d, w))
    | _ => (Return rep,
            (d, World (heap w)
                      (<[dbname d := File (json_dump (collection d w))]> (fs w))
                      (S (writes w))))
    end.
Proof.
  unfold mbind, M_bind, dbwrite, mret, M_ret.
  by destruct (fs w !! dbname d) as [[|t]|].
Qed.

Lemma dbcreate_unfold item d w :
  dbcreate item (d, w) =
    match getitem (heap w !!! item) "id" with
    | Raise e => (Raise e, (d, w))
    | Return v =>
        match setitem (heap w !!! item) "id" (VStr (py_str v)) with
        | Raise e => (Raise e, (d, w))
        | Return obj' =>
            let w1 := World (<[item := obj']> (heap w)) (fs w) (writes w) in
            match db d with
            | DBOther _ => (Raise AttributeError, (d, w1))
            | DBList items =>
                (dbwrite ≫= λ _, mret (Reply "ok" "Annotation created successfully"))
                  (Store (dbname d) (DBList (items ++ [item])), w1)
            end
        end
    end.
Proof.
  unfold dbcreate. mstep. cbn [fst snd].
  destruct (getitem (heap w !!! item) "id") as [v|e] eqn:Hget.
  2:{ erewrite bind_Raise; [done|]. done. }
  erewrite bind_Return by reflexivity.
  destruct (setitem (heap w !!! item) "id" (VStr (py_str v))) as [obj'|e] eqn:Hset.
  2:{ erewrite bind_Raise; [done|]. done. }
  erewrite bind_Return by reflexivity.
  mstep. cbn [fst snd]. destruct (db d) as [items|n] eqn:Hdb.
  - by mstep_by db_append_list.
  - erewrite bind_Raise; [done|]. by eapply db_append_other.
Qed.

Lemma dbupdate_unfold id item d w :
  dbupdate id item (d, w) =
    match (match db d with
           | DBList items => scan (heap w) (py_str id) items 0
           | DBOther n => scan_other n
           end) with
    | Raise e => (Raise e, (d, w))
    | Return idx =>
        if bool_decide (0 ≤ idx)%Z then
          match setitem (heap w !!! item) "id" (VStr (py_str id)) with
          | Raise e => (Raise e, (d, w))
          | Return obj' =>
              let w1 := World (<[item := obj']> (heap w)) (fs w) (writes w) in
              match db d with
              | DBList items =>
                  if bool_decide (Z.to_nat idx < length items)
                  then (dbwrite ≫= λ _, mret (Reply "ok" "Annotation updated successfully"))
                         (Store (dbname d) (DBList (<[Z.to_nat idx := item]> items)), w1)
                  else (Raise IndexError, (d, w1))
              | DBOther _ => (Raise TypeError, (d, w1))
              end
          end
        else (Return (Reply "err" "Error in updating annotation"), (d, w))
    end.
Proof.
  unfold dbupdate.
  assert (find_record (py_str id) (d, w)
          = (match db d with
             | DBList items => scan (heap w) (py_str id) items 0
             | DBOther n => scan_other n
             end, (d, w))) as Hfind
    by (unfold find_record; simpl; by destruct (db d)).
  destruct (match db d with DBList _ => _ | DBOther _ => _ end) as [idx|e].
  2:{ by erewrite bind_Raise. }
  erewrite bind_Return by done.
  case_bool_decide; [|done].
  mstep. cbn [fst snd].
  destruct (setitem (heap w !!! item) "id" (VStr (py_str id))) as [obj'|e] eqn:Hset.
  2:{ erewrite bind_Raise; [done|]. done. }
  erewrite bind_Return by reflexivity.
  mstep. cbn [fst snd]. unfold db_setitem.
  destruct (db d) as [items|n] eqn:Hdb.
  - case_bool_decide.
    + erewrite bind_Return; [done|]. mstep. simpl. rewrite Hdb.
      by rewrite bool_decide_eq_true_2.
    + erewrite bind_Raise; [done|]. mstep. simpl. rewrite Hdb.
      by rewrite bool_decide_eq_false_2.
  - erewrite bind_Raise; [done|]. mstep. simpl. by rewrite Hdb.
Qed.

Lemma dbdelete_unfold id d w :
  dbdelete id (d, w) =
    match (match db d with
           | DBList items => scan (heap w) (py_str id) items 0
           | DBOther n => scan_other n
           end) with
    | Raise e => (Raise e, (d, w))
    | Return idx =>
        if bool_decide (0 ≤ idx)%Z then
          match db d with
          | DBList items =>
              if bool_decide (Z.to_nat idx < length items)
              then (dbwrite ≫= λ _, mret (Reply "ok" "Annotation deleted successfully"))
                     (Store (dbname d) (DBList (delete (Z.to_nat idx) items)), w)
              else (Raise IndexError, (d, w))
          | DBOther _ => (Raise AttributeError, (d, w))
          end
        else (Return (Reply "err" "Error in deleting annotation"), (d, w))
    end.
Proof.
  unfold dbdelete.
  assert (find_record (py_str id) (d, w)
          = (match db d with
             | DBList items => scan (heap w) (py_str id) items 0
             | DBOther n => scan_other n
             end, (d, w))) as Hfind
    by (unfold find_record; simpl; by destruct (db d)).
  destruct (match db d with DBList _ => _ | DBOther _ => _ end) as [idx|e].
  2:{ by erewrite bind_Raise. }
  erewrite bind_Return by done.
  case_bool_decide; [|done].
  unfold db_pop. destruct (db d) as [items|n] eqn:Hdb.
  - case_bool_decide.
    + erewrite bind_Return; [done|]. mstep. simpl. rewrite Hdb.
      by rewrite bool_decide_eq_true_2.
    + erewrite bind_Raise; [done|]. mstep. simpl. rewrite Hdb.
      by rewrite bool_decide_eq_false_2.
  - erewrite bind_Raise; [done|]. mstep. simpl. by rewrite Hdb.
Qed.

Lemma scan_bounds h sid items i idx :
  scan h sid items i = Return idx →
  idx = (-1)%Z ∨ (i ≤ idx < i + Z.of_nat (length items))%Z.
Proof.
  revert i. induction items as [|l rest IH]; intros i; simpl.
  - intros [= <-]. by left.
  - destruct (getitem (h !!! l) "id") as [v|e]; [|done].
    destruct (eq_str v sid).
    + intros [= <-]. right. lia.
    + intros [?|?]%IH; [by left|right; lia].
Qed.

Lemma scan_other_Return n idx : scan_other n = Return idx → idx = (-1)%Z.
Proof.
  destruct n as [| | |s|dd]; simpl; try done.
  - destruct s; naive_solver.
  - case_bool_decide; naive_solver.
Qed.

Lemma getitem_Raise_cases x k e :
  getitem x k = Raise e → e = KeyError ∨ e = TypeError.
Proof. destruct x; simpl; try naive_solver. destruct (d !! k); naive_solver. Qed.

Lemma setitem_Raise x k y e : setitem x k y = Raise e → e = TypeError.
Proof. destruct x; simpl; naive_solver. Qed.

Lemma setitem_after_getitem x k y v :
  getitem x k = Return v → ∃ r, x = VDict r ∧ setitem x k y = Return (VDict (<[k := y]> r)).
Proof. destruct x; simpl; try done. eauto. Qed.

Lemma scan_Raise h sid items i e :
  scan h sid items i = Raise e → e = KeyError ∨ e = TypeError.
Proof.
  revert i. induction items as [|l rest IH]; intros i; simpl; [done|].
  destruct (getitem (h !!! l) "id") as [v|e'] eqn:Hget.
  - destruct (eq_str v sid); [done|]. apply IH.
  - intros [= <-]. by eapply getitem_Raise_cases.
Qed.

Lemma scan_other_Raise n e : scan_other n = Raise e → e = TypeError.
Proof.
  destruct n as [| | |s|dd]; simpl; try naive_solver.
  - destruct s; naive_solver.
  - case_bool_decide; naive_solver.
Qed.

(** ** The ways a call can end *)

(** Every call ends in one of five ways: a written success, an err reply,
    a failure before any change, a failed write after the change in memory,
    or, for a create on a store that is not a list, [AttributeError]. *)
Lemma exec_outcomes o d w :
  (∃ rep items' h',
     status rep = "ok" ∧ writable d w ∧ (∃ items, db d = DBList items)
     ∧ exec o (d, w)
       = (Return rep,
          (Store (dbname d) (DBList items'),
           World h'
             (<[dbname d := File (json_dump (VList (records h' items')))]> (fs w))
             (S (writes w)))))
  ∨ (∃ rep, status rep = "err" ∧ exec o (d, w) = (Return rep, (d, w)))
  ∨ (∃ e, (e = KeyError ∨ e = TypeError) ∧ exec o (d, w) = (Raise e, (d, w)))
  ∨ (∃ items' h',
       fs w !! dbname d = Some Denied ∧ (∃ items, db d = DBList items)
       ∧ exec o (d, w)
         = (Raise PermissionError,
            (Store (dbname d) (DBList items'), World h' (fs w) (writes w))))
  ∨ (∃ item n h',
       o = Create item ∧ db d = DBOther n
       ∧ exec o (d, w)
         = (Raise AttributeError, (d, World h' (fs w) (writes w)))).
Proof.
  assert (∀ rep items items' h',
            status rep = "ok" → db d = DBList items →
            let r := (dbwrite ≫= λ _, mret rep)
                       (Store (dbname d) (DBList items'),
                        World h' (fs w) (writes w)) in
            (∃ rep items' h',
               status rep = "ok" ∧ writable d w ∧ (∃ items, db d = DBList items)
               ∧ r = (Return rep,
                      (Store (dbname d) (DBList items'),
                       World h'
                         (<[dbname d := File (json_dump (VList (records h' items')))]> (fs w))
                         (S (writes w)))))
            ∨ (∃ items' h',
                 fs w !! dbname d = Some Denied ∧ (∃ items, db d = DBList items)
                 ∧ r = (Raise PermissionError,
                        (Store (dbname d) (DBList items'),
                         World h' (fs w) (writes w))))) as Hwrite.
  { intros rep items items' h' Hok Hdb r. unfold r.
    rewrite write_reply_unfold. cbn [dbname fs heap writes].
    unfold writable.
    destruct (fs w !! dbname d) as [[|t]|] eqn:Hfs.
    - right. eauto 10.
    - left. exists rep, items', h'. split_and!; eauto.
    - left. exists rep, items', h'. split_and!; eauto. }
  destruct o as [item|id item|id]; simpl.
  - rewrite dbcreate_unfold.
    destruct (getitem (heap w !!! item) "id") as [v|e1] eqn:Hget.
    + destruct (setitem_after_getitem _ _ (VStr (py_str v)) _ Hget)
        as (r & _ & ->).
      cbn zeta. destruct (db d) as [items|n] eqn:Hdb.
      * destruct (Hwrite (Reply "ok" "Annotation created successfully") items
                    (items ++ [item])
                    (<[item := VDict (<["id" := VStr (py_str v)]> r)]> (heap w))
                    eq_refl eq_refl) as [Hw|Hw];
          [left; exact Hw|do 3 right; left; exact Hw].
      * do 4 right. eauto 10.
    + right; right; left. exists e1. split; [|done].
      by eapply getitem_Raise_cases.
  - rewrite dbupdate_unfold.
    destruct (db d) as [items|n] eqn:Hdb.
    + destruct (scan (heap w) (py_str id) items 0) as [idx|e1] eqn:Hscan.
      * case_bool_decide; [|right; left; eexists; split; [|reflexivity]; reflexivity].
        destruct (setitem _ _ _) as [obj'|e2] eqn:Hset.
        -- cbn zeta. case_bool_decide.
           ++ destruct (Hwrite (Reply "ok" "Annotation updated successfully")
                         items (<[Z.to_nat idx := item]> items)
                         (<[item := obj']> (heap w)) eq_refl eq_refl)
                as [Hw|Hw]; [left; exact Hw|do 3 right; left; exact Hw].
           ++ apply scan_bounds in Hscan. lia.
        -- right; right; left. exists e2. split; [|done].
           right. by eapply setitem_Raise.
      * right; right; left. exists e1. split; [|done]. by eapply scan_Raise.
    + destruct (scan_other n) as [idx|e1] eqn:Hscan.
      * apply scan_other_Return in Hscan as ->.
        rewrite bool_decide_eq_false_2 by lia.
        right; left; eexists; split; [|reflexivity]; reflexivity.
      * right; right; left. exists e1. split; [|done].
        right. by eapply scan_other_Raise.
  - rewrite dbdelete_unfold.
    destruct (db d) as [items|n] eqn:Hdb.
    + destruct (scan (heap w) (py_str id) items 0) as [idx|e1] eqn:Hscan.
      * case_bool_decide; [|right; left; eexists; split; [|reflexivity]; reflexivity]. case_bool_decide.
        ++ destruct (Hwrite (Reply "ok" "Annotation deleted successfully")
                      items (delete (Z.to_nat idx) items) (heap w)
                      eq_refl eq_refl) as [Hw|Hw];
             destruct w as [hw fw nw];
             [left; exact Hw|do 3 right; left; exact Hw].
        ++ apply scan_bounds in Hscan. lia.
      * right; right; left. exists e1. split; [|done]. by eapply scan_Raise.
    + destruct (scan_other n) as [idx|e1] eqn:Hscan.
      * apply scan_other_Return in Hscan as ->.
        rewrite bool_decide_eq_false_2 by lia.
        right; left; eexists; split; [|reflexivity]; reflexivity.
      * right; right; left. exists e1. split; [|done].
        right. by eapply scan_other_Raise.
Qed.






(** ** Loading and restarting *)

Lemma alloc_list_fresh h vs ls h' :
  alloc_list h vs = (ls, h') →
  NoDup ls ∧ (∀ l, l ∈ ls → h !! l = None) ∧ length ls = length vs.
Proof.
  revert h ls h'. induction vs as [|v vs IH]; intros h ls h' Halloc.
  - simplify_eq/=. split_and!; [constructor| |done].
    intros l Hl. by apply elem_of_nil in Hl.
  - simpl in Halloc.
    destruct (alloc_list (<[fresh (dom h) := v]> h) vs) as [ls' h2] eqn:Hrest.
    simplify_eq. apply IH in Hrest as (Hnd & Hnew & Hlen).
    assert (h !! fresh (dom h) = None) as Hfresh
      by apply not_elem_of_dom, is_fresh.
    split_and!.
    + constructor; [|done]. intros Hin. apply Hnew in Hin.
      by rewrite lookup_insert_eq in Hin.
    + intros l [->|Hin]%elem_of_cons; [done|].
      apply Hnew in Hin. apply lookup_insert_None in Hin. tauto.
    + simpl. by rewrite Hlen.
Qed.

(** X5: when the backing file parses, [DB.__init__] binds what it holds and
    writes nothing.  The elements of an array become new objects, distinct
    from one another and from every object of the heap, whose contents are
    the parsed elements; the objects that existed are untouched.  Any other
    JSON value is bound as it is: the constructor does not raise. *)
Theorem DB_init_loads name w t v :
  fs w !! name = Some (File t) →
  json_load t = Return v →
  match v with
  | VList vs =>
      ∃ ls h',
        DB_init name w
          = (Return (Store name (DBList ls)), World h' (fs w) (writes w))
        ∧ records h' ls = vs
        ∧ NoDup ls
        ∧ (∀ l, l ∈ ls → heap w !! l = None)
        ∧ heap w ⊆ h'
  | _ =>
      ∃ n, nonlist_value n = v
           ∧ DB_init name w
             = (Return (Store name (DBOther n)),
                World (heap w) (fs w) (writes w))
  end.
Proof.
  intros Hfile Hload. unfold DB_init, read_and_load, open_read.
  rewrite Hfile, Hload.
  destruct v as [|b|z|s|vs|dd]; simpl;
    try (eexists; split; [|reflexivity]; reflexivity).
  destruct (alloc_list (heap w) vs) as [ls h'] eqn:Halloc.
  pose proof (alloc_list_records _ _ _ _ Halloc) as [Hrecs Hsub].
  pose proof (alloc_list_fresh _ _ _ _ Halloc) as (Hnd & Hnew & _).
  exists ls, h'. by split_and!.
Qed.

Lemma DB_init_heap_irrelevant name h1 h2 f n1 n2 d1 w1 :
  DB_init name (World h1 f n1) = (Return d1, w1) →
  ∃ d2 w2, DB_init name (World h2 f n2) = (Return d2, w2)
           ∧ collection d2 w2 = collection d1 w1.
Proof.
  unfold DB_init, read_and_load, open_read. simpl.
  destruct (match f !! name with
            | Some Denied => Raise PermissionError
            | Some (File t) => json_load t
            | None => Raise FileNotFoundError
            end) as [v|e] eqn:Hload.
  - assert (match match f !! name with
                  | Some Denied => Raise PermissionError
                  | Some (File t) => Return t
                  | None => Raise FileNotFoundError
                  end with
            | Return t => json_load t
            | Raise e => Raise e
            end = Return v) as ->
      by (destruct (f !! name) as [[|t]|]; done).
    destruct (bind_loaded h1 v) as [a1 h1'] eqn:Hb1.
    destruct (bind_loaded h2 v) as [a2 h2'] eqn:Hb2.
    intros [= <- <-]. eexists _, _. split; [done|].
    rewrite (bind_loaded_collection _ _ _ _ _ _ _ Hb1).
    by rewrite (bind_loaded_collection _ _ _ _ _ _ _ Hb2).
  - assert (match match f !! name with
                  | Some Denied => Raise PermissionError
                  | Some (File t) => Return t
                  | None => Raise FileNotFoundError
                  end with
            | Return t => json_load t
            | Raise e => Raise e
            end = Raise e) as ->
      by (destruct (f !! name) as [[|t]|]; done).
    destruct (caught e); [|done].
    intros [= <- <-]. eexists _, _. split; [done|]. done.
Qed.

Lemma persisted_step o (s : state) :
  json_roundtrip → writable s.1 s.2 → persisted s →
  persisted (step o s) ∧ writable (step o s).1 (step o s).2.
Proof.
  destruct s as [d w]. intros Hrt Hw Hp. simpl in Hw. unfold step.
  destruct (exec_outcomes o d w)
    as [(rep & items' & h' & Hok & _ & _ & Hex)
       |[(rep & Herr & Hex)
        |[(e1 & _ & Hex)
         |[(items' & h' & Hfs & _ & Hex)
          |(item & n & h' & -> & Hdb & Hex)]]]];
    rewrite Hex; simpl.
  - split.
    + destruct (DB_init_dumped (dbname d)
                  (World h'
                     (<[dbname d := File (json_dump (VList (records h' items')))]> (fs w))
                     (S (writes w)))
                  (VList (records h' items')) Hrt)
        as (d2 & w2 & Hinit & Hcoll & _).
      { simpl. by rewrite lookup_insert_eq. }
      exists d2, w2. split; [done|]. done.
    + unfold writable. simpl. by rewrite lookup_insert_eq.
  - by split.
  - by split.
  - by destruct Hw.
  - split; [|done]. destruct Hp as (d2 & w2 & Hinit & Hcoll).
    simpl in Hinit, Hcoll. destruct w as [hw fw nw]. simpl in *.
    destruct (DB_init_heap_irrelevant _ _ h' _ _ nw _ _ Hinit)
      as (d3 & w3 & Hinit3 & Hcoll3).
    exists d3, w3. split; [done|]. rewrite Hcoll3, Hcoll.
    unfold collection. simpl. by rewrite Hdb.
Qed.

Lemma persisted_run ops (s : state) :
  json_roundtrip → writable s.1 s.2 → persisted s →
  persisted (run ops s) ∧ writable (run ops s).1 (run ops s).2.
Proof.
  intros Hrt. revert s. induction ops as [|o ops IH]; intros s Hw Hp; [done|].
  simpl. destruct (persisted_step o s Hrt Hw Hp) as [Hp' Hw'].
  by apply IH.
Qed.

Lemma run_dbname ops (s : state) : dbname (run ops s).1 = dbname s.1.
Proof.
  revert s. induction ops as [|o ops IH]; intros s; [done|].
  simpl. rewrite IH. unfold step. destruct s as [d w].
  destruct (exec_outcomes o d w)
    as [(rep & items' & h' & Hok & _ & _ & Hex)
       |[(rep & Herr & Hex)
        |[(e1 & _ & Hex)
         |[(items' & h' & Hfs & _ & Hex)
          |(item & n & h' & -> & Hdb & Hex)]]]];
    by rewrite Hex.
Qed.

(** X6: for a store constructed from a backing file that can be written,
    after any sequence of calls, those that return err or raise included, a
    store constructed again from the file holds the collection that is in
    memory; the [json] round trip is the only assumption. *)
Theorem restart_sees_memory name w d w0 (ops : list op) :
  json_roundtrip →
  fs w !! name ≠ Some Denied →
  DB_init name w = (Return d, w0) →
  let s := run ops (d, w0) in
  ∃ d2 w2,
    DB_init name s.2 = (Return d2, w2)
    ∧ collection d2 w2 = collection s.1 s.2.
Proof.
  intros Hrt Hw Hinit s.
  assert (dbname d = name ∧ fs w0 = fs w) as [Hname Hfs].
  { unfold DB_init in Hinit.
    destruct (read_and_load name w) as [v|e].
    - destruct (bind_loaded (heap w) v). by simplify_eq/=.
    - destruct (caught e); by simplify_eq/=. }
  assert (persisted (d, w0)) as Hp.
  { unfold persisted. simpl. rewrite Hname.
    destruct w as [hw fw nw], w0 as [h0 f0 n0]. simpl in Hfs. subst f0.
    destruct (DB_init_heap_irrelevant _ _ h0 _ _ n0 _ _ Hinit)
      as (d3 & w3 & Hinit3 & Hcoll3).
    eauto. }
  assert (writable d w0) as Hw0
    by (unfold writable; by rewrite Hname, Hfs).
  destruct (persisted_run ops (d, w0) Hrt Hw0 Hp) as [(d2 & w2 & H2 & Hc2) _].
  rewrite run_dbname in H2. cbn [fst] in H2. rewrite Hname in H2.
  exists d2, w2. by split.
Qed.

(** ** Failures of the methods *)

(** X7: [dbcreate] on an argument that is not a dictionary with an [id]
    raises before it changes anything, [KeyError] for a dictionary without
    [id] and [TypeError] for anything else, and [create_annotation] answers
    500 with that exception. *)
Theorem dbcreate_rejects d w item :
  record_id (heap w !!! item) = None →
  ∃ e,
    dbcreate item (d, w) = (Raise e, (d, w))
    ∧ create_annotation item (d, w)
      = (Return (Response 500 (Failure e)), (d, w))
    ∧ (e = KeyError ↔ ∃ r, heap w !!! item = VDict r)
    ∧ (e = TypeError ↔ ∀ r, heap w !!! item ≠ VDict r).
Proof.
  intros Hid.
  assert (∃ e, getitem (heap w !!! item) "id" = Raise e
               ∧ (e = KeyError ↔ ∃ r, heap w !!! item = VDict r)
               ∧ (e = TypeError ↔ ∀ r, heap w !!! item ≠ VDict r))
    as (e & Hget & Hkey & Htype).
  { destruct (heap w !!! item) as [| | | |?|r]; simpl in *;
      try (exists TypeError; split_and!; [done| |]; split;
           [done|intros [? ?]; done|done|done]).
    rewrite Hid. exists KeyError. split_and!; [done| |].
    - split; eauto.
    - split; [done|]. intros Hno. by destruct (Hno r). }
  exists e. split_and!; [|
    unfold create_annotation, respond|done|done].
  - rewrite dbcreate_unfold. by rewrite Hget.
  - rewrite dbcreate_unfold. by rewrite Hget.
Qed.

(** X8: when the backing file refuses the write, a create, an update that
    finds its record and a delete that finds its record raise
    [PermissionError] after the change in memory: the collection in memory
    has the new, replaced or removed record while the file system is as it
    was. *)
Theorem write_failure_keeps_change d w items item r :
  db d = DBList items →
  Forall is_record (records (heap w) items) →
  heap w !!! item = VDict r →
  fs w !! dbname d = Some Denied →
  (∀ v, r !! "id" = Some v →
     dbcreate item (d, w)
       = (Raise PermissionError,
          (Store (dbname d) (DBList (items ++ [item])),
           World (<[item := VDict (<["id" := VStr (py_str v)]> r)]> (heap w))
                 (fs w) (writes w))))
  ∧ (∀ id k, first_match (py_str id) (records (heap w) items) k →
       dbupdate id item (d, w)
         = (Raise PermissionError,
            (Store (dbname d) (DBList (<[k := item]> items)),
             World (<[item := VDict (<["id" := VStr (py_str id)]> r)]> (heap w))
                   (fs w) (writes w)))
       ∧ dbdelete id (d, w)
         = (Raise PermissionError,
            (Store (dbname d) (DBList (delete k items)), w))).
Proof.
  intros Hdb Hrec Hitem Hfs. split.
  - intros v Hid. rewrite (dbcreate_mutates _ _ _ _ _ _ Hdb Hitem Hid).
    erewrite bind_Raise; [done|]. by apply dbwrite_denied.
  - intros id k Hk. split.
    + rewrite (dbupdate_mutates _ _ _ _ _ _ _ Hdb Hrec Hk Hitem).
      erewrite bind_Raise; [done|]. by apply dbwrite_denied.
    + rewrite (dbdelete_mutates _ _ _ _ _ Hdb Hrec Hk).
      erewrite bind_Raise; [done|]. by apply dbwrite_denied.
Qed.

Lemma scan_app_no_match h sid pre rest i :
  Forall (λ x, is_record x ∧ id_is sid x = false) (records h pre) →
  scan h sid (pre ++ rest) i = scan h sid rest (i + Z.of_nat (length pre))%Z.
Proof.
  revert i. induction pre as [|l pre IH]; intros i Hpre.
  - simpl. f_equal. lia.
  - rewrite records_cons in Hpre. apply Forall_cons in Hpre as [[[v Hv] Hno] Hpre].
    simpl. rewrite (getitem_record _ _ Hv).
    assert (eq_str v sid = false) as ->
      by (unfold id_is in Hno; by rewrite Hv in Hno).
    rewrite IH by done. f_equal. lia.
Qed.

(** X9: the scans read [record['id']] of every record up to the first
    match, so a record without [id] that no match precedes makes
    [dbupdate] and [dbdelete] raise [KeyError] with the state unchanged,
    whatever follows it, and the handlers answer 500. *)
Theorem scan_stops_at_record_without_id d w pre l post r id item :
  db d = DBList (pre ++ l :: post) →
  Forall (λ x, is_record x ∧ id_is (py_str id) x = false)
         (records (heap w) pre) →
  heap w !!! l = VDict r →
  r !! "id" = None →
  dbupdate id item (d, w) = (Raise KeyError, (d, w))
  ∧ dbdelete id (d, w) = (Raise KeyError, (d, w))
  ∧ update_annotation id item (d, w)
    = (Return (Response 500 (Failure KeyError)), (d, w))
  ∧ delete_annotation id (d, w)
    = (Return (Response 500 (Failure KeyError)), (d, w)).
Proof.
  intros Hdb Hpre Hl Hid.
  assert (scan (heap w) (py_str id) (pre ++ l :: post) 0 = Raise KeyError)
    as Hscan.
  { rewrite scan_app_no_match by done. simpl. rewrite Hl. simpl.
    by rewrite Hid. }
  assert (dbupdate id item (d, w) = (Raise KeyError, (d, w))) as Hup
    by (rewrite dbupdate_unfold, Hdb; by rewrite Hscan).
  assert (dbdelete id (d, w) = (Raise KeyError, (d, w))) as Hdel
    by (rewrite dbdelete_unfold, Hdb; by rewrite Hscan).
  split_and!; [done|done| |].
  - unfold update_annotation, respond. by rewrite Hup.
  - unfold delete_annotation, respond. by rewrite Hdel.
Qed.

(** ** Compositions *)

(** X10: creating a record whose id, in string form, no record has and
    then deleting that id gives back the list of references and the
    collection of before, with two writes. *)
Theorem create_then_delete d w items item r v id :
  db d = DBList items →
  Forall is_record (records (heap w) items) →
  heap w !!! item = VDict r →
  r !! "id" = Some v →
  py_str id = py_str v →
  writable d w →
  Forall (λ x, id_text x ≠ Some (py_str v)) (records (heap w) items) →
  ∃ s1 s2,
    dbcreate item (d, w)
      = (Return (Reply "ok" "Annotation created successfully"), s1)
    ∧ dbdelete id s1
      = (Return (Reply "ok" "Annotation deleted successfully"), s2)
    ∧ db s2.1 = DBList items
    ∧ collection s2.1 s2.2 = collection d w
    ∧ writes s2.2 = S (S (writes w)).
Proof.
  intros Hdb Hrec Hitem Hid Hsid Hw Hfresh.
  set (rec' := VDict (<["id" := VStr (py_str v)]> r)).
  assert (item ∉ items) as Hnotin.
  { intros Hin. rewrite Forall_forall in Hfresh.
    apply (Hfresh (heap w !!! item)).
    - unfold records. apply list_elem_of_fmap. eauto.
    - unfold id_text. rewrite Hitem. simpl. by rewrite Hid. }
  assert (records (<[item := rec']> (heap w)) (items ++ [item])
          = records (heap w) items ++ [rec']) as Hrecs1.
  { unfold records at 1. rewrite fmap_app.
    fold (records (<[item := rec']> (heap w)) items).
    rewrite records_insert_notin by done. simpl.
    by rewrite lookup_total_insert_eq. }
  assert (id_is (py_str id) rec' = true) as Hnew.
  { apply id_is_true. simpl. rewrite Hsid. apply lookup_insert_eq. }
  eexists _, _. split.
  { rewrite (dbcreate_mutates _ _ _ _ _ _ Hdb Hitem Hid).
    mstep_by dbwrite_writable. reflexivity. }
  split.
  { erewrite (dbdelete_mutates _ _ (items ++ [item]) id (length items));
      [|done|..]; simpl.
    - erewrite bind_Return; [reflexivity|]. apply dbwrite_writable.
      unfold writable. simpl. by rewrite lookup_insert_eq.
    - fold rec'. rewrite Hrecs1. apply Forall_app. split; [done|].
      apply Forall_singleton. unfold is_record. simpl.
      by rewrite lookup_insert_eq.
    - fold rec'. rewrite Hrecs1. split.
      + exists rec'. split; [|done].
        rewrite lookup_app_r by (by rewrite records_length).
        by rewrite records_length, Nat.sub_diag.
      + intros j y Hj Hy.
        rewrite lookup_app_l in Hy by (by rewrite records_length).
        destruct (id_is (py_str id) y) eqn:Hm; [|done].
        apply id_is_text in Hm. rewrite Hsid in Hm.
        rewrite Forall_forall in Hfresh. exfalso.
        eapply Hfresh; [|done]. by eapply list_elem_of_lookup_2. }
  simpl. rewrite (delete_middle items [] item), app_nil_r.
  split_and!; [done| |done].
  unfold collection. simpl. rewrite Hdb.
  by rewrite records_insert_notin.
Qed.

(** X11: an update cannot change which ids the collection has: whatever
    [id] field the given record brings, and whether or not the write
    succeeds, after [dbupdate] with a record object the collection does not
    hold, the collection has the same length and the same ids in the same
    order. *)
Theorem dbupdate_keeps_ids d w items id item r :
  db d = DBList items →
  Forall is_record (records (heap w) items) →
  heap w !!! item = VDict r →
  item ∉ items →
  let s' := step (Update id item) (d, w) in
  ∃ items',
    db s'.1 = DBList items'
    ∧ length items' = length items
    ∧ id_text <$> records (heap s'.2) items'
      = id_text <$> records (heap w) items.
Proof.
  intros Hdb Hrec Hitem Hnotin. unfold step. simpl.
  destruct (first_match_or_none (py_str id) (records (heap w) items))
    as [[k Hk]|Hno].
  - rewrite (dbupdate_mutates _ _ _ _ _ _ _ Hdb Hrec Hk Hitem).
    match goal with |- context [(dbwrite ≫= ?f) (?d0, ?w0)] =>
      destruct (after_write d0 w0
                  (Reply "ok" "Annotation updated successfully")) as [Hd Hh]
    end.
    simpl in Hd, Hh. rewrite Hd, Hh. simpl.
    eexists. split; [done|]. split; [apply length_insert|].
    unfold records at 1. rewrite list_fmap_insert.
    fold (records (<[item:=VDict (<["id":=VStr (py_str id)]> r)]> (heap w)) items).
    rewrite records_insert_notin by done.
    rewrite lookup_total_insert_eq, list_fmap_insert.
    apply list_insert_id.
    destruct Hk as [(x & Hx & Hm) _]. rewrite list_lookup_fmap, Hx. simpl.
    rewrite (id_is_text _ _ Hm). unfold id_text. simpl.
    by rewrite lookup_insert_eq.
  - rewrite (dbupdate_missing _ _ _ _ _ Hdb Hrec Hno). simpl.
    exists items. by rewrite Hdb.
Qed.

(** ** The handlers *)

(** X12: [get_annotations] always answers 200 with the collection and
    leaves the state as it is; after a [create_annotation] answered 200 for
    a new record object, it lists the records of before followed by the
    record with its id in string form. *)
Theorem get_annotations_lists (s : state) :
  get_annotations s
    = (Return (GetResponse 200 (Listing (collection s.1 s.2))), s)
  ∧ (∀ item items r v,
       db s.1 = DBList items →
       heap s.2 !!! item = VDict r →
       r !! "id" = Some v →
       item ∉ items →
       writable s.1 s.2 →
       ∃ s1,
         create_annotation item s
           = (Return (Response 200
                        (Envelope
                           (Reply "ok" "Annotation created successfully"))),
              s1)
         ∧ get_annotations s1
           = (Return
                (GetResponse 200
                   (Listing
                      (VList (records (heap s.2) items
                              ++ [VDict (<["id" := VStr (py_str v)]> r)])))),
              s1)).
Proof.
  split; [done|].
  intros item items r v Hdb Hitem Hid Hnotin Hw. destruct s as [d w].
  simpl in *. eexists. split.
  - unfold create_annotation, respond.
    rewrite (dbcreate_mutates _ _ _ _ _ _ Hdb Hitem Hid).
    erewrite bind_Return by (by apply dbwrite_writable). reflexivity.
  - unfold get_annotations, dbread, collection, records. simpl.
    rewrite fmap_app. simpl. rewrite lookup_total_insert_eq.
    fold (records (<[item:=VDict (<["id":=VStr (py_str v)]> r)]> (heap w)) items).
    rewrite records_insert_notin by done. reflexivity.
Qed.

(** X13: on a collection whose records all carry an id,
    [update_annotation] and [delete_annotation] answer 400, with the state
    unchanged, when no record has the id; when one has, the delete answers
    200 and the update answers 200 for a dictionary and 500 with
    [TypeError], the state unchanged, for anything else (the backing file
    being writable for the answers 200). *)
Theorem update_delete_status_codes d w items id item :
  db d = DBList items →
  Forall is_record (records (heap w) items) →
  let recs := records (heap w) items in
  (Forall (λ x, id_is (py_str id) x = false) recs →
     update_annotation id item (d, w)
       = (Return (Response 400
                    (Envelope (Reply "err" "Error in updating annotation"))),
          (d, w))
     ∧ delete_annotation id (d, w)
       = (Return (Response 400
                    (Envelope (Reply "err" "Error in deleting annotation"))),
          (d, w)))
  ∧ (Exists (λ x, id_is (py_str id) x = true) recs →
     ((∀ r, heap w !!! item ≠ VDict r) →
        update_annotation id item (d, w)
          = (Return (Response 500 (Failure TypeError)), (d, w)))
     ∧ (writable d w →
        (∃ s', delete_annotation id (d, w)
                 = (Return (Response 200
                              (Envelope
                                 (Reply "ok" "Annotation deleted successfully"))),
                    s'))
        ∧ ((∃ r, heap w !!! item = VDict r) →
           ∃ s', update_annotation id item (d, w)
                   = (Return (Response 200
                                (Envelope
                                   (Reply "ok"
                                      "Annotation updated successfully"))),
                      s')))).
Proof.
  intros Hdb Hrec recs. split.
  - intros Hno. split.
    + unfold update_annotation, respond.
      by rewrite (dbupdate_missing _ _ _ _ _ Hdb Hrec Hno).
    + unfold delete_annotation, respond.
      by rewrite (dbdelete_missing _ _ _ _ Hdb Hrec Hno).
  - intros [k Hk]%first_match_exists. split.
    + intros Hnd. unfold update_annotation, respond.
      by rewrite (dbupdate_not_dict _ _ _ _ _ _ Hdb Hrec Hk Hnd).
    + intros Hw. split.
      * eexists. unfold delete_annotation, respond.
        rewrite (dbdelete_mutates _ _ _ _ _ Hdb Hrec Hk).
        erewrite bind_Return by (by apply dbwrite_writable). reflexivity.
      * intros [r Hitem]. eexists. unfold update_annotation, respond.
        rewrite (dbupdate_mutates _ _ _ _ _ _ _ Hdb Hrec Hk Hitem).
        erewrite bind_Return by (by apply dbwrite_writable). reflexivity.
Qed.

End Properties.

(** * Instances on the sample store *)

#[local] Existing Instance sample.

(** The scenario of the specification: create, update and delete of one
    record. *)
Example concrete_scenario :
  let s1 := step (Create 4%positive) empty_state in
  let s2 := step (Update (VStr "1") 3%positive) s1 in
  let s3 := step (Delete (VStr "1")) s2 in
  collection s1.1 s1.2
    = VList [VDict (<["id" := VStr "1"]> (<["label" := VStr "lynx"]> ∅))]
  ∧ collection s2.1 s2.2
    = VList [VDict (<["id" := VStr "1"]> (<["label" := VStr "bird"]> ∅))]
  ∧ collection s3.1 s3.2 = VList []
  ∧ writes s3.2 = 3.
Proof. vm_compute. done. Qed.

(** A record without [id] and a backing file that cannot be written both
    end in the 500 answer of [create_annotation]; in the second case the
    record is already in the collection in memory. *)
Example create_annotation_failures :
  create_annotation 5%positive (sample_db, sample_world)
    = (Return (Response 500 (Failure KeyError)), (sample_db, sample_world))
  ∧ (create_annotation 3%positive (sample_db, denied_world)).1
    = Return (Response 500 (Failure PermissionError))
  ∧ db (create_annotation 3%positive (sample_db, denied_world)).2.1
    = DBList [1%positive; 2%positive; 3%positive].
Proof. vm_compute. done. Qed.

(** An update whose record is an object the collection already holds: the
    object [2] takes the place of the first record and now has the id ["1"]
    at both positions. *)
Example dbupdate_with_held_object :
  let s' := step (Update (VStr "1") 2%positive) (sample_db, sample_world) in
  db s'.1 = DBList [2%positive; 2%positive]
  ∧ collection s'.1 s'.2
    = VList [VDict (<["id" := VStr "1"]> dog); VDict (<["id" := VStr "1"]> dog)].
Proof. vm_compute. done. Qed.


Lemma sample_records :
  records sample_heap [1%positive; 2%positive] = [VDict cat; VDict dog].
Proof. reflexivity. Qed.

Lemma sample_is_record :
  Forall (@is_record) (records (heap sample_world) [1%positive; 2%positive]).
Proof. repeat constructor; by eexists. Qed.

Lemma sample_writable : writable sample_db sample_world.
Proof. unfold writable. by vm_compute. Qed.

(** C1 at the sample store: [update("2", bird)] replaces the second record. *)
Lemma dbupdate_replaces_first_match_witness :
  ∃ k d' w',
    first_match "2" [VDict cat; VDict dog] k
    ∧ @dbupdate sample (VStr "2") 3%positive (sample_db, sample_world)
        = (Return (Reply "ok" "Annotation updated successfully"), (d', w'))
    ∧ db d' = DBList (<[k := 3%positive]> [1%positive; 2%positive])
    ∧ collection d' w'
        = VList (<[k := VDict (<["id" := VStr "2"]> bird)]>
                   [VDict cat; VDict dog]).
Proof.
  destruct (@dbupdate_replaces_first_match sample sample_db sample_world
              [1%positive; 2%positive] (VStr "2") 3%positive bird)
    as (k & d' & w' & Hk & Hrun & _ & Hdb & _ & _ & _ & _ & _ & Hcoll).
  - reflexivity.
  - exact sample_is_record.
  - apply Exists_cons_tl, Exists_cons_hd. reflexivity.
  - reflexivity.
  - exact sample_writable.
  - exists k, d', w'. split_and!; [exact Hk|exact Hrun|exact Hdb|].
    apply Hcoll. rewrite !not_elem_of_cons.
    split_and!; [done..|apply not_elem_of_nil].
Defined.

(** C2 at the sample store: [create(bird)] appends the record with id ["7"]. *)
Lemma dbcreate_appends_witness :
  ∃ d' w',
    @dbcreate sample 3%positive (sample_db, sample_world)
      = (Return (Reply "ok" "Annotation created successfully"), (d', w'))
    ∧ db d' = DBList [1%positive; 2%positive; 3%positive]
    ∧ collection d' w'
      = VList [VDict cat; VDict dog; VDict (<["id" := VStr "7"]> bird)]
    ∧ writes w' = 1.
Proof.
  destruct (@dbcreate_appends sample sample_db sample_world
              [1%positive; 2%positive] 3%positive bird (VInt 7))
    as (d' & w' & Hrun & _ & Hdb & Hheap & _ & Hwr & Hcoll & _ & Hfresh).
  - reflexivity.
  - reflexivity.
  - reflexivity.
  - exact sample_writable.
  - exists d', w'. split_and!; [exact Hrun|exact Hdb| |exact Hwr].
    rewrite Hcoll. destruct Hfresh as [-> _]; [|reflexivity].
    repeat constructor; by vm_compute.
Defined.

(** C3 at the sample store: [update("9", bird)] finds nothing. *)
Lemma dbupdate_not_found_witness :
  @dbupdate sample (VStr "9") 3%positive (sample_db, sample_world)
    = (Return (Reply "err" "Error in updating annotation"),
       (sample_db, sample_world)).
Proof.
  destruct (@dbupdate_not_found sample sample_db sample_world
              [1%positive; 2%positive] (VStr "9") 3%positive)
    as (d' & w' & Hrun & -> & -> & _).
  - reflexivity.
  - exact sample_is_record.
  - repeat constructor.
  - exact Hrun.
Defined.

(** C4 at the sample store: [delete("1")] removes the first record, and
    [delete("9")] finds nothing. *)
Lemma dbdelete_first_match_witness :
  (∃ k d' w',
     first_match "1" [VDict cat; VDict dog] k
     ∧ @dbdelete sample (VStr "1") (sample_db, sample_world)
         = (Return (Reply "ok" "Annotation deleted successfully"), (d', w'))
     ∧ db d' = DBList (delete k [1%positive; 2%positive])
     ∧ writes w' = 1)
  ∧ @dbdelete sample (VStr "9") (sample_db, sample_world)
      = (Return (Reply "err" "Error in deleting annotation"),
         (sample_db, sample_world)).
Proof.
  split.
  - destruct (proj1 (@dbdelete_first_match sample sample_db sample_world
                       [1%positive; 2%positive] (VStr "1")
                       eq_refl sample_is_record))
      as (k & d' & w' & Hk & Hrun & _ & Hdb & _ & _ & Hwr & _).
    + apply Exists_cons_hd. reflexivity.
    + exact sample_writable.
    + exists k, d', w'. by split_and!.
  - destruct (proj2 (@dbdelete_first_match sample sample_db sample_world
                       [1%positive; 2%positive] (VStr "9")
                       eq_refl sample_is_record))
      as (d' & w' & Hrun & -> & -> & _).
    + repeat constructor.
    + exact Hrun.
Defined.

(** C5 at the sample store: after [delete("1")] and [create(bird)], a store
    constructed from the backing file holds the two records in memory. *)
Lemma reload_after_mutation_witness :
  ∃ d2 w2,
    exec (Create 3%positive) (run [Delete (VStr "1")] (sample_db, sample_world))
      = (Return (Reply "ok" "Annotation created successfully"), sample_after)
    ∧ @DB_init sample "anno.json" sample_after.2 = (Return d2, w2)
    ∧ collection d2 w2 = collection sample_after.1 sample_after.2
    ∧ collection sample_after.1 sample_after.2
      = VList [VDict dog; VDict (<["id" := VStr "7"]> bird)].
Proof.
  assert (@json_roundtrip sample) as Hrt by (intros v; reflexivity).
  assert (exec (Create 3%positive)
            (run [Delete (VStr "1")] (sample_db, sample_world))
          = (Return (Reply "ok" "Annotation created successfully"),
             sample_after)) as Hrun
    by (vm_compute; reflexivity).
  destruct (@reload_after_mutation sample _ _ _ _ _ Hrt Hrun eq_refl)
    as (d2 & w2 & Hinit & Hcoll & _).
  exists d2, w2. split_and!; [exact Hrun|exact Hinit|exact Hcoll|].
  vm_compute. reflexivity.
Defined.

(** C6, the claim as stated fails: the backing file of [denied_world] cannot
    be read, and the constructor raises instead of yielding an empty
    collection. *)
Lemma DB_init_denied_raises :
  @open_read sample "anno.json" denied_world = Raise PermissionError
  ∧ @DB_init sample "anno.json" denied_world
    = (Raise PermissionError, denied_world)
  ∧ @DB_init sample "anno.json" denied_world
    ≠ (Return (Store "anno.json" (DBList [])), denied_world).
Proof. split_and!; [reflexivity|reflexivity|discriminate]. Qed.

(** C6 (amended) at the sample worlds: a missing path and a file that is not
    JSON both give the empty collection. *)
Lemma DB_init_load_failures_witness :
  @DB_init sample "missing.json" sample_world
    = (Return (Store "missing.json" (DBList [])), sample_world)
  ∧ @DB_init sample "anno.json" junk_world
    = (Return (Store "anno.json" (DBList [])), junk_world).
Proof.
  split.
  - apply (proj1 (@DB_init_load_failures sample "missing.json" sample_world)).
    reflexivity.
  - apply (proj1 (proj2 (@DB_init_load_failures sample "anno.json" junk_world))
             (Junk "{oops")); reflexivity.
Defined.

(** C7, the claim as stated fails: two creates from the empty store give a
    collection with two records of id ["1"]. *)
Lemma duplicate_ids_reachable :
  reachable twin_state
  ∧ collection twin_state.1 twin_state.2
    = VList [VDict cat; VDict (<["id" := VStr "1"]> lynx)]
  ∧ id_text (VDict cat) = id_text (VDict (<["id" := VStr "1"]> lynx))
  ∧ ¬ unique_ids twin_state.
Proof.
  split_and!.
  - unfold twin_state, run. simpl foldl.
    do 2 apply reachable_step. apply reachable_empty.
  - vm_compute. reflexivity.
  - reflexivity.
  - intros (items & Hdb & Hnd).
    assert (items = [1%positive; 4%positive]) as ->
      by (vm_compute in Hdb; congruence).
    vm_compute in Hnd. apply NoDup_cons in Hnd as [Hnotin _].
    apply Hnotin. apply list_elem_of_here.
Qed.

(** C7 (amended) at [busy_state], reached by calls of all three kinds that
    keep to the conditions: its two records have strings for ids, and
    different ones. *)
Lemma ids_of_reachable_stores_witness :
  reachable_fresh busy_state
  ∧ collection busy_state.1 busy_state.2
    = VList [VDict dog; VDict (<["id" := VStr "1"]> lynx)]
  ∧ string_ids busy_state
  ∧ unique_ids busy_state.
Proof.
  assert (reachable_fresh busy_state) as Hreach.
  { unfold busy_state, run. cbn [foldl].
    repeat (apply fresh_step); [apply fresh_empty|..].
    - intros sid _. constructor.
    - unfold fresh_call.
      change (db (step (Create 1%positive) empty_state).1)
        with (DBList [1%positive]).
      intros sid Hsid. vm_compute in Hsid. injection Hsid as <-.
      repeat constructor. by vm_compute.
    - unfold fresh_call.
      change (db (step (Create 2%positive)
                    (step (Create 1%positive) empty_state)).1)
        with (DBList [1%positive; 2%positive]).
      rewrite !not_elem_of_cons. split_and!; [done..|apply not_elem_of_nil].
    - unfold fresh_call.
      by change (db (step (Update (VStr "1") 3%positive)
                       (step (Create 2%positive)
                          (step (Create 1%positive) empty_state))).1)
        with (DBList [3%positive; 2%positive]).
    - unfold fresh_call.
      change (db (step (Delete (VStr "1"))
                    (step (Update (VStr "1") 3%positive)
                       (step (Create 2%positive)
                          (step (Create 1%positive) empty_state)))).1)
        with (DBList [2%positive]).
      intros sid Hsid. vm_compute in Hsid. injection Hsid as <-.
      repeat constructor. by vm_compute. }
  split; [exact Hreach|]. split; [vm_compute; reflexivity|].
  exact (proj2 (@ids_of_reachable_stores sample) busy_state Hreach).
Defined.

(** C8, the claim as stated fails: [twin_state] holds two records with id
    ["1"], and the second [delete("1")] in a row returns status ok again and
    changes the state once more. *)
Lemma dbdelete_twice_with_duplicates :
  let s1 := step (Delete (VStr "1")) twin_state in
  let s2 := step (Delete (VStr "1")) s1 in
  collection twin_state.1 twin_state.2
    = VList [VDict cat; VDict (<["id" := VStr "1"]> lynx)]
  ∧ dbdelete (VStr "1") twin_state
    = (Return (Reply "ok" "Annotation deleted successfully"), s1)
  ∧ dbdelete (VStr "1") s1
    = (Return (Reply "ok" "Annotation deleted successfully"), s2)
  ∧ collection s1.1 s1.2 = VList [VDict (<["id" := VStr "1"]> lynx)]
  ∧ collection s2.1 s2.2 = VList []
  ∧ s2 ≠ s1.
Proof.
  split_and!; try (vm_compute; reflexivity).
  intros Heq. apply (f_equal (λ s : state, writes s.2)) in Heq.
  vm_compute in Heq. discriminate.
Qed.

(** C8 (amended) at the sample store, where one record has the id ["1"]. *)
Lemma dbdelete_twice_witness :
  ∃ s1,
    dbdelete (VStr "1") (sample_db, sample_world)
      = (Return (Reply "ok" "Annotation deleted successfully"), s1)
    ∧ dbdelete (VStr "1") s1
      = (Return (Reply "err" "Error in deleting annotation"), s1).
Proof.
  apply (@dbdelete_twice sample sample_db sample_world
           [1%positive; 2%positive] (VStr "1")).
  - reflexivity.
  - exact sample_is_record.
  - exact sample_writable.
  - apply Exists_cons_hd. reflexivity.
  - intros i j x y Hx Hy Hxm Hym.
    destruct i as [|[|i]]; destruct j as [|[|j]]; simplify_eq/=; done.
Defined.

(** C9 at the sample store: [create(bird)] returns status ok and the handler
    answers 200. *)
Lemma dbcreate_has_no_err_reply_witness :
  ∃ s',
    dbcreate 3%positive (sample_db, sample_world)
      = (Return (Reply "ok" "Annotation created successfully"), s')
    ∧ create_annotation 3%positive (sample_db, sample_world)
      = (Return (Response 200
                   (Envelope (Reply "ok" "Annotation created successfully"))),
         s').
Proof.
  apply (proj2 (proj2 (@dbcreate_has_no_err_reply sample
                         (sample_db, sample_world) 3%positive))
           [1%positive; 2%positive] bird (VInt 7)).
  - reflexivity.
  - reflexivity.
  - reflexivity.
  - exact sample_writable.
Defined.

(** C10 at the sample store: after [create(bird)] the object [3] itself has
    the id ["7"] and is the last element of the collection; after
    [update("2", bird)] it has the id ["2"] and stands at position 1. *)
Lemma stored_record_is_argument_witness :
  (let s' := (dbcreate 3%positive (sample_db, sample_world)).2 in
   heap s'.2 = <[3%positive := VDict (<["id" := VStr "7"]> bird)]> sample_heap
   ∧ db s'.1 = DBList [1%positive; 2%positive; 3%positive])
  ∧ (let s' := (dbupdate (VStr "2") 3%positive (sample_db, sample_world)).2 in
     heap s'.2 = <[3%positive := VDict (<["id" := VStr "2"]> bird)]> sample_heap
     ∧ db s'.1 = DBList [1%positive; 3%positive]).
Proof.
  pose proof (@stored_record_is_argument sample sample_db sample_world
                [1%positive; 2%positive] 3%positive bird eq_refl eq_refl)
    as [Hcreate Hupdate].
  split.
  - destruct (Hcreate (VInt 7) eq_refl) as (Hheap & Hdb & _).
    split; [exact Hheap|exact Hdb].
  - destruct (Hupdate (VStr "2") 1 sample_is_record) as (Hheap & Hdb & _).
    + split; [by eexists|].
      intros j y Hj Hy. destruct j as [|j]; [|lia]. by simplify_eq/=.
    + split; [exact Hheap|exact Hdb].
Defined.

(** ** Instances of the further properties *)



(** X5 at the sample world, whose file holds the two records [cat] and
    [dog]. *)
Lemma DB_init_loads_witness :
  ∃ ls h',
    DB_init "anno.json" sample_world
      = (Return (Store "anno.json" (DBList ls)), World h' (fs sample_world) 0)
    ∧ records h' ls = [VDict cat; VDict dog]
    ∧ NoDup ls
    ∧ (∀ l, l ∈ ls → sample_heap !! l = None)
    ∧ sample_heap ⊆ h'.
Proof.
  exact (@DB_init_loads sample "anno.json" sample_world
           (Doc (VList [VDict cat; VDict dog]))
           (VList [VDict cat; VDict dog]) eq_refl eq_refl).
Defined.

(** X6 at the sample world: a store is loaded, then [create(bird)],
    [delete("1")], [update("9", bird)] (not found) and [create(owl)] (no
    id) are called. *)
Lemma restart_sees_memory_witness :
  let d := Store "anno.json" (DBList [6%positive; 7%positive]) in
  let w0 := World (<[7%positive := VDict dog]>
                     (<[6%positive := VDict cat]> sample_heap))
                  (fs sample_world) 0 in
  let s := run [Create 3%positive; Delete (VStr "1");
                Update (VStr "9") 3%positive; Create 5%positive] (d, w0) in
  DB_init "anno.json" sample_world = (Return d, w0)
  ∧ ∃ d2 w2,
      DB_init "anno.json" s.2 = (Return d2, w2)
      ∧ collection d2 w2 = collection s.1 s.2.
Proof.
  intros d w0 s.
  assert (DB_init "anno.json" sample_world = (Return d, w0)) as Hinit
    by (vm_compute; reflexivity).
  split; [exact Hinit|].
  apply (@restart_sees_memory sample "anno.json" sample_world d w0).
  - intros v. reflexivity.
  - by vm_compute.
  - exact Hinit.
Defined.

(** X7 at the sample store: [create(owl)] raises [KeyError]. *)
Lemma dbcreate_rejects_witness :
  ∃ e,
    dbcreate 5%positive (sample_db, sample_world)
      = (Raise e, (sample_db, sample_world))
    ∧ e = KeyError.
Proof.
  destruct (@dbcreate_rejects sample sample_db sample_world 5%positive eq_refl)
    as (e & Hrun & _ & Hkey & _).
  exists e. split; [exact Hrun|]. apply Hkey. by eexists.
Defined.

(** X8 at the sample store with a file that refuses the write. *)
Lemma write_failure_keeps_change_witness :
  dbcreate 3%positive (sample_db, denied_world)
    = (Raise PermissionError,
       (Store "anno.json" (DBList [1%positive; 2%positive; 3%positive]),
        World (<[3%positive := VDict (<["id" := VStr "7"]> bird)]> sample_heap)
              (fs denied_world) 0)).
Proof.
  apply (proj1 (@write_failure_keeps_change sample sample_db denied_world
                  [1%positive; 2%positive] 3%positive bird
                  eq_refl sample_is_record eq_refl eq_refl)
           (VInt 7)).
  reflexivity.
Defined.

(** X9 at [gap_db]: [delete("2")] raises although the last record has the
    id ["2"]. *)
Lemma scan_stops_at_record_without_id_witness :
  dbdelete (VStr "2") (gap_db, sample_world)
    = (Raise KeyError, (gap_db, sample_world))
  ∧ delete_annotation (VStr "2") (gap_db, sample_world)
    = (Return (Response 500 (Failure KeyError)), (gap_db, sample_world)).
Proof.
  destruct (@scan_stops_at_record_without_id sample gap_db sample_world
              [1%positive] 5%positive [2%positive] owl (VStr "2") 3%positive)
    as (_ & Hdel & _ & Hresp).
  - reflexivity.
  - repeat constructor. by eexists.
  - reflexivity.
  - reflexivity.
  - split; [exact Hdel|exact Hresp].
Defined.

(** X10 at the sample store: [create(bird)] then [delete("7")]. *)
Lemma create_then_delete_witness :
  ∃ s1 s2,
    dbcreate 3%positive (sample_db, sample_world)
      = (Return (Reply "ok" "Annotation created successfully"), s1)
    ∧ dbdelete (VStr "7") s1
      = (Return (Reply "ok" "Annotation deleted successfully"), s2)
    ∧ db s2.1 = DBList [1%positive; 2%positive]
    ∧ collection s2.1 s2.2 = VList [VDict cat; VDict dog]
    ∧ writes s2.2 = 2.
Proof.
  apply (@create_then_delete sample sample_db sample_world
           [1%positive; 2%positive] 3%positive bird (VInt 7) (VStr "7")).
  - reflexivity.
  - exact sample_is_record.
  - reflexivity.
  - reflexivity.
  - reflexivity.
  - exact sample_writable.
  - repeat constructor; by vm_compute.
Defined.

(** X11 at the sample store: [update("2", bird)]; [bird] came with id 7. *)
Lemma dbupdate_keeps_ids_witness :
  let s' := step (Update (VStr "2") 3%positive) (sample_db, sample_world) in
  ∃ items',
    db s'.1 = DBList items'
    ∧ length items' = 2
    ∧ id_text <$> records (heap s'.2) items' = [Some "1"; Some "2"].
Proof.
  apply (@dbupdate_keeps_ids sample sample_db sample_world
           [1%positive; 2%positive] (VStr "2") 3%positive bird
           eq_refl sample_is_record eq_refl).
  rewrite !not_elem_of_cons. split_and!; [done..|apply not_elem_of_nil].
Defined.

(** X12 at the sample store: the listing after [create(bird)]. *)
Lemma get_annotations_lists_witness :
  ∃ s1,
    create_annotation 3%positive (sample_db, sample_world)
      = (Return (Response 200
                   (Envelope (Reply "ok" "Annotation created successfully"))),
         s1)
    ∧ get_annotations s1
      = (Return
           (GetResponse 200
              (Listing
                 (VList [VDict cat; VDict dog;
                         VDict (<["id" := VStr "7"]> bird)]))),
         s1).
Proof.
  apply (proj2 (@get_annotations_lists sample (sample_db, sample_world))
           3%positive [1%positive; 2%positive] bird (VInt 7)).
  - reflexivity.
  - reflexivity.
  - reflexivity.
  - rewrite !not_elem_of_cons. split_and!; [done..|apply not_elem_of_nil].
  - exact sample_writable.
Defined.

(** X13 at the sample store: no record has the id ["9"]. *)
Lemma update_delete_status_codes_witness :
  update_annotation (VStr "9") 3%positive (sample_db, sample_world)
    = (Return (Response 400
                 (Envelope (Reply "err" "Error in updating annotation"))),
       (sample_db, sample_world))
  ∧ delete_annotation (VStr "9") (sample_db, sample_world)
    = (Return (Response 400
                 (Envelope (Reply "err" "Error in deleting annotation"))),
       (sample_db, sample_world)).
Proof.
  apply (proj1 (@update_delete_status_codes sample sample_db sample_world
                  [1%positive; 2%positive] (VStr "9") 3%positive
                  eq_refl sample_is_record)).
  repeat constructor.
Defined.

